(** * Booking front end: a shallow embedding of the client code

    The development follows the TypeScript sources of the booking front end:
    the API service ([services/api.ts]), the two React hooks
    ([hooks/useBooking.ts], [hooks/useMagicLink.ts]), the booking form, the
    booking details view and the card-number formatter of the payment form.
    The back end is not part of the sources; the few places that need it use
    a model written from the specification, in module [Backend]. *)

From Stdlib Require Import ZArith NArith List Bool String Ascii Lia.
From Stdlib Require Import DecimalString.
From stdpp Require Import base option list gmap.
Import ListNotations.

Set Warnings "-register-all".

Local Open Scope N_scope.
Local Open Scope list_scope.

(** ** JavaScript strings

    A JavaScript string is a sequence of UTF-16 code units.  The functions of
    the sources that look inside a string ([trim], the regular expressions of
    [formatCardNumber]) classify single code units, so a string is modelled
    as the list of its code units. *)

Abbreviation jsstring := (list N).

(** Code units of a literal written in the sources (all literals are ASCII). *)
Definition js (s : string) : jsstring :=
  List.map N_of_ascii (list_ascii_of_string s).

(** [String(n)] for a non-negative integer, as in a template literal. *)
Definition js_of_N (n : N) : jsstring :=
  js (NilEmpty.string_of_uint (N.to_uint n)).

(** [String(z)] for an integer. *)
Definition js_of_Z (z : Z) : jsstring :=
  match z with
  | Z0 => js "0"
  | Zpos p => js_of_N (Npos p)
  | Zneg p => js "-" ++ js_of_N (Npos p)
  end.

(** The class [\s] of a regular expression, which is also what
    [String.prototype.trim] strips: WhiteSpace and LineTerminator. *)
Definition is_whitespace (c : N) : bool :=
  (c =? 9) || (c =? 10) || (c =? 11) || (c =? 12) || (c =? 13) || (c =? 32)
  || (c =? 160) || (c =? 5760) || ((8192 <=? c) && (c <=? 8202))
  || (c =? 8232) || (c =? 8233) || (c =? 8239) || (c =? 8287)
  || (c =? 12288) || (c =? 65279).

(** The class [\d], and the class [0-9]: the ten ASCII digits. *)
Definition is_digit (c : N) : bool := (48 <=? c) && (c <=? 57).

Definition space : N := 32.

Fixpoint trim_start (s : jsstring) : jsstring :=
  match s with
  | c :: s' => if is_whitespace c then trim_start s' else s
  | [] => []
  end.

Definition trim_end (s : jsstring) : jsstring := rev (trim_start (rev s)).

(** [s.trim()] *)
Definition trim (s : jsstring) : jsstring := trim_end (trim_start s).

(** [s.substring(i, j)] for [i <= j]. *)
Definition substring (i j : nat) (s : jsstring) : jsstring :=
  firstn (j - i) (skipn i s).

(** [parts.join(sep)] *)
Fixpoint join (sep : jsstring) (parts : list jsstring) : jsstring :=
  match parts with
  | [] => []
  | [p] => p
  | p :: rest => p ++ sep ++ join sep rest
  end.

(** ** components/PaymentInterface.tsx *)

Module PaymentInterface.

(** [value.replace(/\s+/g, '')]: every run of white space is deleted. *)
Definition remove_whitespace (value : jsstring) : jsstring :=
  List.filter (fun c => negb (is_whitespace c)) value.

(** [.replace(/[^0-9]/gi, '')]: every code unit outside [0-9] is deleted
    (no letter has a digit as its case variant, so the [i] flag changes
    nothing). *)
Definition remove_non_digits (value : jsstring) : jsstring :=
  List.filter is_digit value.

(** The longest run of digits at the head of [s], of at most [k] digits:
    what the greedy [\d{4,16}] consumes at a position. *)
Fixpoint take_digits (k : nat) (s : jsstring) : jsstring :=
  match k, s with
  | S k', c :: s' => if is_digit c then c :: take_digits k' s' else []
  | _, _ => []
  end.

(** [v.match(/\d{4,16}/g)] lists the matches from left to right, and the
    code keeps [matches[0]]: the leftmost match, [None] when [match]
    returns [null]. *)
Fixpoint first_match (s : jsstring) : option jsstring :=
  match s with
  | [] => None
  | _ :: s' =>
      let m := take_digits 16 s in
      if (4 <=? length m)%nat then Some m else first_match s'
  end.

(** The loop [for (let i = 0, len = match.length; i < len; i += 4)
    parts.push(match.substring(i, i + 4))], with [fuel] bounding the
    number of iterations. *)
Fixpoint chunk_loop (fuel i : nat) (m : jsstring) (parts : list jsstring)
  : list jsstring :=
  match fuel with
  | O => parts
  | S fuel' =>
      if (i <? length m)%nat
      then chunk_loop fuel' (i + 4) m (parts ++ [substring i (i + 4) m])
      else parts
  end.

Definition formatCardNumber (value : jsstring) : jsstring :=
  let v := remove_non_digits (remove_whitespace value) in
  let matches := first_match v in
  let match_ := default [] matches in
  let parts := chunk_loop (length match_) 0 match_ [] in
  if (0 <? length parts)%nat then join [space] parts else v.

(** [formatExpiry] *)
Definition formatExpiry (value : jsstring) : jsstring :=
  let v := remove_non_digits (remove_whitespace value) in
  if (2 <=? length v)%nat
  then substring 0 2 v ++ js "/" ++ substring 2 4 v
  else v.

(** The [onChange] handler of the CVV input:
    [e.target.value.replace(/\D/g, '').slice(0, 4)]. *)
Definition cvv_onChange (value : jsstring) : jsstring :=
  firstn 4 (List.filter is_digit value).

End PaymentInterface.

(** ** JavaScript values

    Responses are parsed JSON and are handed around untyped (the TypeScript
    interfaces are erased at run time), so the client code is modelled on
    JavaScript values.  JSON numbers are taken at integer values: the code
    only tests a number for truthiness or prints it. *)

Inductive JsValue : Type :=
| JUndefined
| JNull
| JBool (b : bool)
| JNum (z : Z)
| JStr (s : jsstring)
| JArr (items : list JsValue)
| JObj (fields : list (jsstring * JsValue)).

(** What a [throw] or a rejected promise carries: an [Error] object (an
    instance of [Error], with its [message]) or any other value. *)
Inductive Thrown : Type :=
| ErrorObject (name message : jsstring)
| NonError (v : JsValue).

(** ToBoolean *)
Definition truthy (v : JsValue) : bool :=
  match v with
  | JUndefined | JNull => false
  | JBool b => b
  | JNum z => negb (z =? 0)%Z
  | JStr s => negb (Nat.eqb (length s) 0)
  | JArr _ | JObj _ => true
  end.

(** [a || b] *)
Definition js_or (a b : JsValue) : JsValue := if truthy a then a else b.

(** ToString; an array prints its items joined by commas, with [null] and
    [undefined] items printed as nothing.  A number prints all its digits,
    as [String] does below 10^21 (from there on JavaScript switches to the
    exponent form), and an object prints as a plain object does, with the
    [toString] of [Object.prototype]. *)
Fixpoint to_string (v : JsValue) : jsstring :=
  match v with
  | JUndefined => js "undefined"
  | JNull => js "null"
  | JBool true => js "true"
  | JBool false => js "false"
  | JNum z => js_of_Z z
  | JStr s => s
  | JArr items =>
      join (js ",")
        (List.map (fun x => match x with
                            | JUndefined | JNull => []
                            | _ => to_string x
                            end) items)
  | JObj _ => js "[object Object]"
  end.

(** [new Error(message)] for a [message] that is not [undefined]. *)
Definition new_Error (message : JsValue) : Thrown :=
  ErrorObject (js "Error") (to_string message).

Definition new_TypeError (message : jsstring) : Thrown :=
  ErrorObject (js "TypeError") message.

Definition lookup_field (k : jsstring) (fields : list (jsstring * JsValue))
  : JsValue :=
  match List.find (fun kv => bool_decide (fst kv = k)) fields with
  | Some kv => snd kv
  | None => JUndefined
  end.

(** [v.k] for one of the property names the client reads ([success],
    [data], [error], [status], [paymentStatus]): a [TypeError] on [null] and
    [undefined], the field of an object, [undefined] on anything else. *)
Definition get_prop (v : JsValue) (k : jsstring) : Thrown + JsValue :=
  match v with
  | JUndefined =>
      inl (new_TypeError
             (js "Cannot read properties of undefined (reading '" ++ k ++ js "')"))
  | JNull =>
      inl (new_TypeError
             (js "Cannot read properties of null (reading '" ++ k ++ js "')"))
  | JObj fields => inr (lookup_field k fields)
  | _ => inr JUndefined
  end.

(** [v?.k] *)
Definition get_prop_opt (v : JsValue) (k : jsstring) : JsValue :=
  match get_prop v k with
  | inr x => x
  | inl _ => JUndefined
  end.

(** [v === 'literal'] *)
Definition strict_eq_str (v : JsValue) (s : jsstring) : bool :=
  match v with
  | JStr t => bool_decide (t = s)
  | _ => false
  end.

(** [error instanceof Error ? error.message : fallback] *)
Definition message_or (error : Thrown) (fallback : jsstring) : jsstring :=
  match error with
  | ErrorObject _ message => message
  | NonError _ => fallback
  end.

(** ** types/booking.ts: the string-literal union types *)

Module AppointmentType.
Inductive t := CONSULTATION | TUTORIAL | ASSESSMENT | GROUP_SESSION | WORKSHOP.
Definition literal (a : t) : jsstring :=
  match a with
  | CONSULTATION => js "CONSULTATION"
  | TUTORIAL => js "TUTORIAL"
  | ASSESSMENT => js "ASSESSMENT"
  | GROUP_SESSION => js "GROUP_SESSION"
  | WORKSHOP => js "WORKSHOP"
  end.
Definition all : list t :=
  [CONSULTATION; TUTORIAL; ASSESSMENT; GROUP_SESSION; WORKSHOP].
End AppointmentType.

Module BookingStatus.
Inductive t := pending_confirmation | confirmed | completed | cancelled.
Definition literal (s : t) : jsstring :=
  match s with
  | pending_confirmation => js "pending_confirmation"
  | confirmed => js "confirmed"
  | completed => js "completed"
  | cancelled => js "cancelled"
  end.
End BookingStatus.

Module PaymentStatus.
Inductive t := pending | processing | completed | failed | refunded.
Definition literal (s : t) : jsstring :=
  match s with
  | pending => js "pending"
  | processing => js "processing"
  | completed => js "completed"
  | failed => js "failed"
  | refunded => js "refunded"
  end.
Definition all : list t := [pending; processing; completed; failed; refunded].
End PaymentStatus.

(** services/api.ts, [PaymentUpdateRequest.paymentStatus]:
    ['pending' | 'completed' | 'failed' | 'refunded']. *)
Module PaymentUpdateStatus.
Inductive t := pending | completed | failed | refunded.
Definition literal (s : t) : jsstring :=
  match s with
  | pending => js "pending"
  | completed => js "completed"
  | failed => js "failed"
  | refunded => js "refunded"
  end.
Definition all : list t := [pending; completed; failed; refunded].
End PaymentUpdateStatus.

Record PaymentUpdateRequest := {
  paymentStatus : PaymentUpdateStatus.t;
  paymentId : option jsstring;
  amount : option Z;
  currency : option jsstring;
}.

(** The object literal of a payment update, as handed to [JSON.stringify]. *)
Definition PaymentUpdateRequest_value (r : PaymentUpdateRequest) : JsValue :=
  JObj [ (js "paymentStatus", JStr (PaymentUpdateStatus.literal (paymentStatus r)));
         (js "paymentId", from_option JStr JUndefined (paymentId r));
         (js "amount", from_option JNum JUndefined (amount r));
         (js "currency", from_option JStr JUndefined (currency r)) ].

(** [BookingFormData]; at run time [appointmentType] is whatever string the
    select element delivered, and [bookingDetails] is an open object. *)
Record BookingFormData := {
  userName : jsstring;
  userPhone : jsstring;
  appointmentType : jsstring;
  appointmentDate : jsstring;
  bookingDetails : list (jsstring * JsValue);
}.

Definition BookingFormData_value (d : BookingFormData) : JsValue :=
  JObj [ (js "userName", JStr (userName d));
         (js "userPhone", JStr (userPhone d));
         (js "appointmentType", JStr (appointmentType d));
         (js "appointmentDate", JStr (appointmentDate d));
         (js "bookingDetails", JObj (bookingDetails d)) ].

(** ** The state the client code runs on *)

(** hooks/useBooking.ts, [UseBookingState].  The declared types are
    [string | null], [BookingResponse | null] and [BookingDetails | null];
    the fields hold whatever value the response carried. *)
Record UseBookingState := {
  loading : bool;
  error : JsValue;
  success : bool;
  bookingResponse : JsValue;
  bookingDetails_ : JsValue;
}.

(** hooks/useMagicLink.ts, [UseMagicLinkState]. *)
Record UseMagicLinkState := {
  ml_loading : bool;
  ml_error : JsValue;
  preview : JsValue;
  analytics : JsValue;
}.

(** The text produced by [JSON.stringify(v)], kept as the value it prints. *)
Inductive JsonText := JSON_stringify (v : JsValue).

(** One call of [fetch(url, init)]. *)
Record FetchCall := {
  url : jsstring;
  method : option jsstring;
  headers : list (jsstring * jsstring);
  body : option JsonText;
}.

(** A [Response]: its status and what [response.json()] settles to. *)
Record Response := {
  status : N;
  json : Thrown + JsValue;
}.

Definition make_response (code : N) (j : Thrown + JsValue) : Response :=
  {| status := code; json := j |}.

(** [response.ok]: the status is in the range 200-299. *)
Definition ok (r : Response) : bool := (200 <=? status r) && (status r <=? 299).

Inductive FetchOutcome :=
| Rejects (e : Thrown)
| Resolves (r : Response).

(** An argument of [console.error]: a text or a caught value. *)
Inductive ConsoleArg :=
| Text (s : jsstring)
| Caught (e : Thrown).

(** Work scheduled with [setTimeout]. *)
Inductive Task := RefreshBookingDetails (uuid : jsstring) (delay : N).

(** Calls of the callbacks a parent component passed in. *)
Inductive Callback :=
| OnSubmit (data : BookingFormData)
| OnPaymentUpdate (uuid : jsstring) (status : PaymentUpdateStatus.t).

(** The world of the client: the environment it cannot control (what the
    network answers to a call, given the calls made before; what
    [new Date(s).toISOString()] returns, [None] when it throws a
    [RangeError]; the clock; what a callback of the parent component does
    when it is called, [None] when it returns and [Some e] when it throws
    [e]), the traces it leaves (calls of [fetch], console output, timers,
    callbacks) and the React state of the components. *)
Record World := {
  respond : list FetchCall -> FetchCall -> FetchOutcome;
  toISOString : jsstring -> option jsstring;
  clock : N;
  parent : Callback -> option Thrown;
  fetched : list FetchCall;
  console : list (list ConsoleArg);
  timers : list Task;
  called : list Callback;
  booking : UseBookingState;
  magicLink : UseMagicLinkState;
  paymentLoading : bool;
}.

Definition with_fetched (f : list FetchCall) (w : World) : World :=
  {| respond := respond w; toISOString := toISOString w; clock := clock w;
     parent := parent w;
     fetched := f; console := console w; timers := timers w;
     called := called w; booking := booking w; magicLink := magicLink w;
     paymentLoading := paymentLoading w |}.

Definition with_console (c : list (list ConsoleArg)) (w : World) : World :=
  {| respond := respond w; toISOString := toISOString w; clock := clock w;
     parent := parent w;
     fetched := fetched w; console := c; timers := timers w;
     called := called w; booking := booking w; magicLink := magicLink w;
     paymentLoading := paymentLoading w |}.

Definition with_timers (t : list Task) (w : World) : World :=
  {| respond := respond w; toISOString := toISOString w; clock := clock w;
     parent := parent w;
     fetched := fetched w; console := console w; timers := t;
     called := called w; booking := booking w; magicLink := magicLink w;
     paymentLoading := paymentLoading w |}.

Definition with_called (c : list Callback) (w : World) : World :=
  {| respond := respond w; toISOString := toISOString w; clock := clock w;
     parent := parent w;
     fetched := fetched w; console := console w; timers := timers w;
     called := c; booking := booking w; magicLink := magicLink w;
     paymentLoading := paymentLoading w |}.

Definition with_booking (b : UseBookingState) (w : World) : World :=
  {| respond := respond w; toISOString := toISOString w; clock := clock w;
     parent := parent w;
     fetched := fetched w; console := console w; timers := timers w;
     called := called w; booking := b; magicLink := magicLink w;
     paymentLoading := paymentLoading w |}.

Definition with_magicLink (m : UseMagicLinkState) (w : World) : World :=
  {| respond := respond w; toISOString := toISOString w; clock := clock w;
     parent := parent w;
     fetched := fetched w; console := console w; timers := timers w;
     called := called w; booking := booking w; magicLink := m;
     paymentLoading := paymentLoading w |}.

Definition with_parent (p : Callback -> option Thrown) (w : World) : World :=
  {| respond := respond w; toISOString := toISOString w; clock := clock w;
     parent := p;
     fetched := fetched w; console := console w; timers := timers w;
     called := called w; booking := booking w; magicLink := magicLink w;
     paymentLoading := paymentLoading w |}.

Definition with_paymentLoading (p : bool) (w : World) : World :=
  {| respond := respond w; toISOString := toISOString w; clock := clock w;
     parent := parent w;
     fetched := fetched w; console := console w; timers := timers w;
     called := called w; booking := booking w; magicLink := magicLink w;
     paymentLoading := p |}.

(** ** Computations: state passing with exceptions

    An [async] function is run to completion: [await] is sequencing.  What
    may happen between the steps of two functions in flight is covered by
    the lemmas on the state updaters further down, which hold from any
    state. *)

Inductive Completion (A : Type) :=
| Normal (a : A)
| Throws (e : Thrown).
Arguments Normal {A} a.
Arguments Throws {A} e.

Definition Js (A : Type) : Type := World -> World * Completion A.

#[export] Instance Js_ret : MRet Js := fun A a w => (w, Normal a).

#[export] Instance Js_bind : MBind Js := fun A B k m w =>
  match m w with
  | (w', Normal a) => k a w'
  | (w', Throws e) => (w', Throws e)
  end.

Definition throw {A} (e : Thrown) : Js A := fun w => (w, Throws e).

(** [try { m } catch (e) { handler e }] *)
Definition try_catch {A} (m : Js A) (handler : Thrown -> Js A) : Js A :=
  fun w =>
    match m w with
    | (w', Normal a) => (w', Normal a)
    | (w', Throws e) => handler e w'
    end.

(** [try { m } finally { cleanup }] *)
Definition try_finally {A} (m : Js A) (cleanup : Js unit) : Js A :=
  fun w =>
    match m w with
    | (w', c) =>
        match cleanup w' with
        | (w'', Normal _) => (w'', c)
        | (w'', Throws e) => (w'', Throws e)
        end
    end.

(** A step that cannot fail, and a step that reads the world. *)
Definition modify (f : World -> World) : Js unit := fun w => (f w, Normal tt).
Definition reads {A} (f : World -> A) : Js A := fun w => (w, Normal (f w)).

(** A property read that may throw. *)
Definition get (v : JsValue) (k : jsstring) : Js JsValue :=
  match get_prop v k with
  | inl e => throw e
  | inr x => mret x
  end.

(** [await fetch(url, init)]: the call is recorded and the environment
    answers it. *)
Definition fetch (c : FetchCall) : Js Response := fun w =>
  let w' := with_fetched (fetched w ++ [c]) w in
  match respond w (fetched w) c with
  | Rejects e => (w', Throws e)
  | Resolves r => (w', Normal r)
  end.

(** [await response.json()] *)
Definition response_json (r : Response) : Js JsValue :=
  match json r with
  | inl e => throw e
  | inr v => mret v
  end.

(** [console.error(...args)] *)
Definition console_error (args : list ConsoleArg) : Js unit :=
  modify (fun w => with_console (console w ++ [args]) w).

(** [Date.now()] *)
Definition Date_now : Js N := reads clock.

(** [new Date(s).toISOString()] *)
Definition Date_toISOString (s : jsstring) : Js jsstring := fun w =>
  match toISOString w s with
  | Some iso => (w, Normal iso)
  | None => (w, Throws (ErrorObject (js "RangeError") (js "Invalid time value")))
  end.

(** [setTimeout(task, delay)] *)
Definition setTimeout (t : Task) : Js unit :=
  modify (fun w => with_timers (timers w ++ [t]) w).

(** A call of a callback the parent passed in: the call is recorded, and
    the callback returns or throws as the parent has it. *)
Definition call_back (c : Callback) : Js unit := fun w =>
  let w' := with_called (called w ++ [c]) w in
  match parent w c with
  | None => (w', Normal tt)
  | Some e => (w', Throws e)
  end.

(** ** services/api.ts *)

Definition magicLinkBaseUrl : jsstring := js "https://tbook-v1.vercel.app".
Definition apiBaseUrl : jsstring := js "https://tbook-v1.vercel.app".

(** [RequestInit], with the members the service sets. *)
Record RequestInit := {
  init_method : option jsstring;
  init_headers : option (list (jsstring * jsstring));
  init_body : option JsonText;
}.

Definition no_options : RequestInit :=
  {| init_method := None; init_headers := None; init_body := None |}.

Module ApiService.

(** The object literal of the [catch] branch of [request]. *)
Definition failure (error : Thrown) : JsValue :=
  JObj [ (js "success", JBool false);
         (js "error", JStr (message_or error (js "Unknown error occurred"))) ].

(** The [init] argument of [fetch]: [{headers: {'Content-Type': ...,
    ...options.headers}, ...options}]; a [headers] member of [options]
    replaces the merged one. *)
Definition fetch_init (u : jsstring) (options : RequestInit) : FetchCall :=
  {| url := u;
     method := init_method options;
     headers := match init_headers options with
                | Some h => h
                | None => [(js "Content-Type", js "application/json")]
                end;
     body := init_body options |}.

Definition request (endpoint : jsstring) (options : RequestInit) : Js JsValue :=
  try_catch
    (let u := apiBaseUrl ++ endpoint in
     response ← fetch (fetch_init u options);
     data ← response_json response;
     if negb (ok response)
     then
       e ← get data (js "error");
       throw (new_Error
                (js_or e (JStr (js "HTTP error! status: "
                                  ++ js_of_N (status response)))))
     else mret data)
    (fun error =>
       console_error [Text (js "API request failed:"); Caught error];;
       mret (failure error)).

Definition createBooking (bookingData : BookingFormData) : Js JsValue :=
  request (js "/api/booking/create")
    {| init_method := Some (js "POST"); init_headers := None;
       init_body := Some (JSON_stringify (BookingFormData_value bookingData)) |}.

Definition confirmBooking (uuid : jsstring) : Js JsValue :=
  request (js "/api/booking/confirm/" ++ uuid)
    {| init_method := Some (js "POST"); init_headers := None;
       init_body := None |}.

Definition updatePaymentStatus (uuid : jsstring)
    (paymentData : PaymentUpdateRequest) : Js JsValue :=
  request (js "/api/booking/payment/" ++ uuid)
    {| init_method := Some (js "PUT"); init_headers := None;
       init_body := Some (JSON_stringify (PaymentUpdateRequest_value paymentData)) |}.

Definition getBookingDetails (uuid : jsstring) : Js JsValue :=
  request (js "/api/booking/" ++ uuid) no_options.

Definition previewMagicLink (magicLinkId : jsstring) : Js JsValue :=
  request (js "/appt/" ++ magicLinkId ++ js "/preview") no_options.

(** [AnalyticsEvent] is passed as the value it is. *)
Definition trackMagicLinkEvent (magicLinkId : jsstring) (eventData : JsValue)
  : Js JsValue :=
  request (js "/appt/" ++ magicLinkId ++ js "/track")
    {| init_method := Some (js "POST"); init_headers := None;
       init_body := Some (JSON_stringify eventData) |}.

Definition getMagicLinkAnalytics (magicLinkId : jsstring) : Js JsValue :=
  request (js "/appt/" ++ magicLinkId ++ js "/analytics") no_options.

(** [`${magicLinkBaseUrl}/appt/${magicLinkId}`] *)
Definition getMagicLinkUrl (magicLinkId : jsstring) : jsstring :=
  concat [magicLinkBaseUrl; js "/appt/"; magicLinkId].

Definition healthCheck : Js JsValue := request (js "/health") no_options.

End ApiService.

(** [a && b], where evaluating [b] may throw. *)
Definition js_and (a : JsValue) (b : Js JsValue) : Js JsValue :=
  if truthy a then b else mret a.

(** ** hooks/useBooking.ts *)

Module UseBooking.

Definition initial : UseBookingState :=
  {| loading := false; error := JNull; success := false;
     bookingResponse := JNull; bookingDetails_ := JNull |}.

Definition setState (f : UseBookingState -> UseBookingState) : Js unit :=
  modify (fun w => with_booking (f (booking w)) w).

(** The updaters passed to [setState]. *)

(** [prev => ({...prev, loading: true, error: null, success: false})] *)
Definition starting_create (prev : UseBookingState) : UseBookingState :=
  {| loading := true; error := JNull; success := false;
     bookingResponse := bookingResponse prev;
     bookingDetails_ := bookingDetails_ prev |}.

(** [prev => ({...prev, loading: true, error: null})] *)
Definition starting (prev : UseBookingState) : UseBookingState :=
  {| loading := true; error := JNull; success := success prev;
     bookingResponse := bookingResponse prev;
     bookingDetails_ := bookingDetails_ prev |}.

(** [{...prev, loading: false, success: true, bookingResponse: data, error: null}] *)
Definition created (data : JsValue) (prev : UseBookingState) : UseBookingState :=
  {| loading := false; error := JNull; success := true;
     bookingResponse := data;
     bookingDetails_ := bookingDetails_ prev |}.

(** [{...prev, loading: false, success: true, error: null}] *)
Definition succeeded (prev : UseBookingState) : UseBookingState :=
  {| loading := false; error := JNull; success := true;
     bookingResponse := bookingResponse prev;
     bookingDetails_ := bookingDetails_ prev |}.

(** [{...prev, loading: false, success: true, bookingDetails: data, error: null}] *)
Definition fetched_details (data : JsValue) (prev : UseBookingState)
  : UseBookingState :=
  {| loading := false; error := JNull; success := true;
     bookingResponse := bookingResponse prev;
     bookingDetails_ := data |}.

(** [{...prev, loading: false, error: e, success: false}] *)
Definition failed (e : JsValue) (prev : UseBookingState) : UseBookingState :=
  {| loading := false; error := e; success := false;
     bookingResponse := bookingResponse prev;
     bookingDetails_ := bookingDetails_ prev |}.

(** The [catch] branch shared by the four operations. *)
Definition caught (e : Thrown) : Js unit :=
  setState (failed (JStr (message_or e (js "An unexpected error occurred")))).

Definition clearState : Js unit := setState (fun _ => initial).

Definition createBooking (data : BookingFormData) : Js unit :=
  setState starting_create;;
  try_catch
    (response ← ApiService.createBooking data;
     s ← get response (js "success");
     c ← js_and s (get response (js "data"));
     if truthy c
     then
       d ← get response (js "data");
       setState (created d)
     else
       e ← get response (js "error");
       setState (failed (js_or e (JStr (js "Failed to create booking")))))
    caught.

Definition confirmBooking (uuid : jsstring) : Js unit :=
  setState starting;;
  try_catch
    (response ← ApiService.confirmBooking uuid;
     s ← get response (js "success");
     if truthy s
     then setState succeeded
     else
       e ← get response (js "error");
       setState (failed (js_or e (JStr (js "Failed to confirm booking")))))
    caught.

Definition updatePayment (uuid : jsstring) (paymentData : PaymentUpdateRequest)
  : Js unit :=
  setState starting;;
  try_catch
    (response ← ApiService.updatePaymentStatus uuid paymentData;
     s ← get response (js "success");
     if truthy s
     then setState succeeded
     else
       e ← get response (js "error");
       setState (failed (js_or e (JStr (js "Failed to update payment")))))
    caught.

Definition getBookingDetails (uuid : jsstring) : Js unit :=
  setState starting;;
  try_catch
    (response ← ApiService.getBookingDetails uuid;
     s ← get response (js "success");
     c ← js_and s (get response (js "data"));
     if truthy c
     then
       d ← get response (js "data");
       setState (fetched_details d)
     else
       e ← get response (js "error");
       setState (failed (js_or e (JStr (js "Failed to fetch booking details")))))
    caught.

End UseBooking.

(** ** hooks/useMagicLink.ts *)

Module UseMagicLink.

Definition initial : UseMagicLinkState :=
  {| ml_loading := false; ml_error := JNull; preview := JNull;
     analytics := JNull |}.

Definition setState (f : UseMagicLinkState -> UseMagicLinkState) : Js unit :=
  modify (fun w => with_magicLink (f (magicLink w)) w).

(** [prev => ({...prev, loading: true, error: null})] *)
Definition starting (prev : UseMagicLinkState) : UseMagicLinkState :=
  {| ml_loading := true; ml_error := JNull; preview := preview prev;
     analytics := analytics prev |}.

(** [{...prev, loading: false, preview: data, error: null}] *)
Definition previewed (data : JsValue) (prev : UseMagicLinkState)
  : UseMagicLinkState :=
  {| ml_loading := false; ml_error := JNull; preview := data;
     analytics := analytics prev |}.

(** [{...prev, loading: false, analytics: data, error: null}] *)
Definition analysed (data : JsValue) (prev : UseMagicLinkState)
  : UseMagicLinkState :=
  {| ml_loading := false; ml_error := JNull; preview := preview prev;
     analytics := data |}.

(** [{...prev, loading: false, error: e}] *)
Definition failed (e : JsValue) (prev : UseMagicLinkState) : UseMagicLinkState :=
  {| ml_loading := false; ml_error := e; preview := preview prev;
     analytics := analytics prev |}.

Definition caught (e : Thrown) : Js unit :=
  setState (failed (JStr (message_or e (js "An unexpected error occurred")))).

Definition clearState : Js unit := setState (fun _ => initial).

Definition previewMagicLink (magicLinkId : jsstring) : Js unit :=
  setState starting;;
  try_catch
    (response ← ApiService.previewMagicLink magicLinkId;
     s ← get response (js "success");
     c ← js_and s (get response (js "data"));
     if truthy c
     then
       d ← get response (js "data");
       setState (previewed d)
     else
       e ← get response (js "error");
       setState (failed (js_or e (JStr (js "Failed to preview magic link")))))
    caught.

Definition trackEvent (magicLinkId : jsstring) (eventData : JsValue) : Js unit :=
  try_catch
    (ApiService.trackMagicLinkEvent magicLinkId eventData;;
     mret tt)
    (fun error =>
       console_error [Text (js "Failed to track event:"); Caught error]).

Definition getAnalytics (magicLinkId : jsstring) : Js unit :=
  setState starting;;
  try_catch
    (response ← ApiService.getMagicLinkAnalytics magicLinkId;
     s ← get response (js "success");
     if truthy s
     then
       d ← get response (js "data");
       setState (analysed d)
     else
       e ← get response (js "error");
       setState (failed (js_or e (JStr (js "Failed to fetch analytics")))))
    caught.

End UseMagicLink.

(** ** components/BookingForm.tsx *)

Module BookingForm.

(** The [option] elements of the appointment-type select: value and label. *)
Definition appointmentTypeOptions : list (jsstring * jsstring) :=
  [ (js "CONSULTATION", js "Consultation");
    (js "TUTORIAL", js "Tutorial Session");
    (js "ASSESSMENT", js "Assessment");
    (js "GROUP_SESSION", js "Group Session");
    (js "WORKSHOP", js "Workshop") ].

(** The initial form state; [today] is
    [new Date().toISOString().slice(0, 16)]. *)
Definition initialFormData (today : jsstring) : BookingFormData :=
  {| userName := [];
     userPhone := [];
     appointmentType := js "CONSULTATION";
     appointmentDate := today;
     bookingDetails := [ (js "subject", JStr []); (js "level", JStr []);
                         (js "duration", JNum 60); (js "notes", JStr []) ] |}.

(** The keys [handleInputChange] is called with. *)
Inductive Field := F_userName | F_userPhone | F_appointmentType | F_appointmentDate.

(** [setFormData(prev => ({...prev, [field]: value}))] *)
Definition handleInputChange (field : Field) (value : jsstring)
    (prev : BookingFormData) : BookingFormData :=
  match field with
  | F_userName =>
      {| userName := value; userPhone := userPhone prev;
         appointmentType := appointmentType prev;
         appointmentDate := appointmentDate prev;
         bookingDetails := bookingDetails prev |}
  | F_userPhone =>
      {| userName := userName prev; userPhone := value;
         appointmentType := appointmentType prev;
         appointmentDate := appointmentDate prev;
         bookingDetails := bookingDetails prev |}
  | F_appointmentType =>
      {| userName := userName prev; userPhone := userPhone prev;
         appointmentType := value;
         appointmentDate := appointmentDate prev;
         bookingDetails := bookingDetails prev |}
  | F_appointmentDate =>
      {| userName := userName prev; userPhone := userPhone prev;
         appointmentType := appointmentType prev;
         appointmentDate := value;
         bookingDetails := bookingDetails prev |}
  end.

(** [{...prev.bookingDetails, [field]: value}]: a key that is there keeps
    its place, a new key comes last (as the keys of the form do, which are
    not integer-like). *)
Definition set_detail (field : jsstring) (value : JsValue)
    (details : list (jsstring * JsValue)) : list (jsstring * JsValue) :=
  if existsb (fun kv => bool_decide (fst kv = field)) details
  then List.map (fun kv => if bool_decide (fst kv = field)
                           then (field, value) else kv) details
  else details ++ [(field, value)].

Definition handleBookingDetailsChange (field : jsstring) (value : JsValue)
    (prev : BookingFormData) : BookingFormData :=
  {| userName := userName prev; userPhone := userPhone prev;
     appointmentType := appointmentType prev;
     appointmentDate := appointmentDate prev;
     bookingDetails := set_detail field value (bookingDetails prev) |}.

(** What the user can do to the form: type into an input, or pick one of
    the options of the select. *)
Inductive FormEvent :=
| TypeUserName (value : jsstring)
| TypeUserPhone (value : jsstring)
| PickAppointmentType (option_ : jsstring * jsstring)
| PickAppointmentDate (value : jsstring)
| EditDetail (field : jsstring) (value : JsValue).

(** An event the rendered form can deliver. *)
Definition deliverable (e : FormEvent) : Prop :=
  match e with
  | PickAppointmentType o => In o appointmentTypeOptions
  | _ => True
  end.

(** The [onChange] handlers. *)
Definition onChange (e : FormEvent) (prev : BookingFormData) : BookingFormData :=
  match e with
  | TypeUserName v => handleInputChange F_userName v prev
  | TypeUserPhone v => handleInputChange F_userPhone v prev
  | PickAppointmentType o => handleInputChange F_appointmentType (fst o) prev
  | PickAppointmentDate v => handleInputChange F_appointmentDate v prev
  | EditDetail f v => handleBookingDetailsChange f v prev
  end.

(** The form states the user can bring about. *)
Inductive reachable (today : jsstring) : BookingFormData -> Prop :=
| reachable_initial : reachable today (initialFormData today)
| reachable_change e d :
    reachable today d -> deliverable e -> reachable today (onChange e d).

(** [!s], for a string. *)
Definition is_empty (s : jsstring) : bool := Nat.eqb (length s) 0.

(** [{...formData, appointmentDate: iso}] *)
Definition formatted (formData : BookingFormData) (iso : jsstring)
  : BookingFormData :=
  {| userName := userName formData; userPhone := userPhone formData;
     appointmentType := appointmentType formData;
     appointmentDate := iso;
     bookingDetails := bookingDetails formData |}.

(** [handleSubmit], after [e.preventDefault()]; [onSubmit] tells whether
    the parent passed the callback. *)
Definition handleSubmit (onSubmit : bool) (formData : BookingFormData)
  : Js unit :=
  UseBooking.clearState;;
  if is_empty (trim (userName formData))
  then console_error [Text (js "User name is required")]
  else if is_empty (trim (userPhone formData))
  then console_error [Text (js "Phone number is required")]
  else if is_empty (appointmentDate formData)
  then console_error [Text (js "Appointment date is required")]
  else
    try_catch
      (iso ← Date_toISOString (appointmentDate formData);
       let formattedData := formatted formData iso in
       UseBooking.createBooking formattedData;;
       if onSubmit then call_back (OnSubmit formattedData) else mret tt)
      (fun error =>
         console_error [Text (js "Form submission error:"); Caught error]).

End BookingForm.

(** ** components/BookingDetails.tsx *)

Module BookingDetails.

Record Props := {
  uuid : option jsstring;
  onPaymentUpdate : bool;
}.

(** The argument of [handlePaymentUpdate]: ['completed' | 'failed']. *)
Inductive PaymentResult := completed | failed.

Definition as_update_status (r : PaymentResult) : PaymentUpdateStatus.t :=
  match r with
  | completed => PaymentUpdateStatus.completed
  | failed => PaymentUpdateStatus.failed
  end.

(** The buttons of the "Action Buttons" block. *)
Inductive Button := ConfirmButton | MarkPaidButton | MarkFailedButton.

(** [bookingDetails.status] and [bookingDetails.paymentStatus] as the view
    reads them. *)
Definition displayed_status (w : World) : JsValue :=
  get_prop_opt (bookingDetails_ (booking w)) (js "status").

Definition displayed_paymentStatus (w : World) : JsValue :=
  get_prop_opt (bookingDetails_ (booking w)) (js "paymentStatus").

(** The action buttons the component renders: none on the loading, error
    and "no booking" screens, otherwise those of lines 273-311.  For
    details whose [status] or [appointmentType] is not a string the render
    throws before it gets there and nothing is shown; the list below is
    then more than what is rendered. *)
Definition action_buttons (w : World) : list Button :=
  if loading (booking w) then []
  else if truthy (error (booking w)) then []
  else if negb (truthy (bookingDetails_ (booking w))) then []
  else
    (if strict_eq_str (displayed_status w) (js "pending_confirmation")
     then [ConfirmButton] else [])
    ++
    (if strict_eq_str (displayed_status w) (js "confirmed")
        && strict_eq_str (displayed_paymentStatus w) (js "pending")
     then [MarkPaidButton; MarkFailedButton] else []).

Definition handleConfirmBooking (props : Props) : Js unit :=
  details ← reads (fun w => bookingDetails_ (booking w));
  match uuid props with
  | Some u =>
      if truthy (JStr u)
         && strict_eq_str (get_prop_opt details (js "status"))
              (js "pending_confirmation")
      then
        UseBooking.confirmBooking u;;
        setTimeout (RefreshBookingDetails u 1000)
      else mret tt
  | None => mret tt
  end.

Definition handlePaymentUpdate (props : Props) (status : PaymentResult)
  : Js unit :=
  match uuid props with
  | None => mret tt
  | Some u =>
      if negb (truthy (JStr u)) then mret tt
      else
        modify (with_paymentLoading true);;
        try_finally
          (try_catch
             (now ← Date_now;
              UseBooking.updatePayment u
                {| paymentStatus := as_update_status status;
                   paymentId := Some (js "payment_" ++ js_of_N now);
                   amount := match status with
                             | completed => Some 100%Z
                             | failed => None
                             end;
                   currency := match status with
                               | completed => Some (js "USD")
                               | failed => None
                               end |};;
              (if onPaymentUpdate props
               then call_back (OnPaymentUpdate u (as_update_status status))
               else mret tt);;
              setTimeout (RefreshBookingDetails u 1000))
             (fun error =>
                console_error [Text (js "Payment update failed:"); Caught error]))
          (modify (with_paymentLoading false))
  end.

(** The [onClick] handlers of the action buttons. *)
Definition onClick (props : Props) (b : Button) : Js unit :=
  match b with
  | ConfirmButton => handleConfirmBooking props
  | MarkPaidButton => handlePaymentUpdate props completed
  | MarkFailedButton => handlePaymentUpdate props failed
  end.

(** A timer set by the handlers fires. *)
Definition run_task (t : Task) : Js unit :=
  match t with
  | RefreshBookingDetails u _ => UseBooking.getBookingDetails u
  end.

End BookingDetails.

(** ** The back end, as the specification describes it

    The server code is not among the sources.  The definitions of this
    module follow sections 3, 4.2, 4.3 and 4.4 of the specification and the
    route table of the README. *)

Fixpoint strip_prefix (p s : jsstring) : option jsstring :=
  match p, s with
  | [], _ => Some s
  | a :: p', b :: s' => if a =? b then strip_prefix p' s' else None
  | _ :: _, [] => None
  end.

Definition strip_suffix (p s : jsstring) : option jsstring :=
  option_map (@rev N) (strip_prefix (rev p) (rev s)).

Module Backend.

(** Modelled from the spec: the error kinds of section 7 that the
    operations below return. *)
Inductive Error := NotFound | InvalidStateTransition.

(** Modelled from the spec: the Booking entity of section 3 (without the
    open [details] map, which the state machine does not read). *)
Record Booking := {
  internalId : jsstring;
  bookingId : jsstring;
  magicLinkId : jsstring;
  contactName : jsstring;
  contactPhone : jsstring;
  kind : AppointmentType.t;
  date : jsstring;
  status : BookingStatus.t;
  payment : PaymentStatus.t;
  createdAt : N;
  confirmedAt : option N;
  lastAccessedAt : option N;
  accessCount : N;
}.

(** Modelled from the spec: the booking store of section 4.3, keyed by the
    internal identifier, with the index from magic-link tokens. *)
Record Store := {
  bookings : gmap jsstring Booking;
  links : gmap jsstring jsstring;
}.

(** Modelled from the spec: the status graph of section 4.2,
    pending_confirmation -> confirmed -> completed, with cancelled
    reachable from pending_confirmation or confirmed. *)
Definition status_edge (from to : BookingStatus.t) : bool :=
  match from, to with
  | BookingStatus.pending_confirmation, BookingStatus.confirmed
  | BookingStatus.confirmed, BookingStatus.completed
  | BookingStatus.pending_confirmation, BookingStatus.cancelled
  | BookingStatus.confirmed, BookingStatus.cancelled => true
  | _, _ => false
  end.

(** Modelled from the spec: the record after a legal move; entering
    confirmed sets confirmedAt to the current time. *)
Definition enter (now : N) (target : BookingStatus.t) (b : Booking) : Booking :=
  {| internalId := internalId b; bookingId := bookingId b;
     magicLinkId := magicLinkId b; contactName := contactName b;
     contactPhone := contactPhone b; kind := kind b; date := date b;
     status := target; payment := payment b; createdAt := createdAt b;
     confirmedAt := match target with
                    | BookingStatus.confirmed => Some now
                    | _ => confirmedAt b
                    end;
     lastAccessedAt := lastAccessedAt b; accessCount := accessCount b |}.

(** Modelled from the spec: the transition contract of section 4.2.  A
    move along an edge succeeds; confirming a confirmed booking is a no-op
    that returns success; anything else is an InvalidStateTransition. *)
Definition set_status (now : N) (target : BookingStatus.t) (b : Booking)
  : Error + Booking :=
  match status b, target with
  | BookingStatus.confirmed, BookingStatus.confirmed => inr b
  | _, _ =>
      if status_edge (status b) target
      then inr (enter now target b)
      else inl InvalidStateTransition
  end.

(** Modelled from the spec: [update] of section 4.3 for the status field;
    the record is written only when the state machine accepts the move. *)
Definition transition (now : N) (id : jsstring) (target : BookingStatus.t)
    (s : Store) : Store * (Error + Booking) :=
  match bookings s !! id with
  | None => (s, inl NotFound)
  | Some b =>
      match set_status now target b with
      | inl e => (s, inl e)
      | inr b' =>
          ({| bookings := <[id := b']> (bookings s); links := links s |},
           inr b')
      end
  end.

(** Modelled from the spec: the side effect of [resolve] on the record. *)
Definition accessed (now : N) (b : Booking) : Booking :=
  {| internalId := internalId b; bookingId := bookingId b;
     magicLinkId := magicLinkId b; contactName := contactName b;
     contactPhone := contactPhone b; kind := kind b; date := date b;
     status := status b; payment := payment b; createdAt := createdAt b;
     confirmedAt := confirmedAt b;
     lastAccessedAt := Some now; accessCount := accessCount b + 1 |}.

(** Modelled from the spec: the redirect target of section 4.4. *)
Definition redirect_target (frontendBase : jsstring) (b : Booking) : jsstring :=
  frontendBase ++ js "/booking/" ++ bookingId b
    ++ js "?status=" ++ BookingStatus.literal (status b)
    ++ js "&payment_status=" ++ PaymentStatus.literal (payment b)
    ++ js "&source=magic_link".

(** Modelled from the spec: [getByMagicLink] of section 4.3. *)
Definition getByMagicLink (token : jsstring) (s : Store) : option Booking :=
  id ← links s !! token; bookings s !! id.

(** Modelled from the spec: [resolve] of section 4.4, which counts the
    access and returns the redirect target. *)
Definition resolve (frontendBase : jsstring) (now : N) (token : jsstring)
    (s : Store) : Store * (Error + jsstring) :=
  match getByMagicLink token s with
  | None => (s, inl NotFound)
  | Some b =>
      let b' := accessed now b in
      ({| bookings := <[internalId b := b']> (bookings s); links := links s |},
       inr (redirect_target frontendBase b'))
  end.

(** Modelled from the spec: [preview] of section 4.4, the same lookup as a
    read. *)
Definition preview (frontendBase : jsstring) (token : jsstring) (s : Store)
  : Error + (Booking * jsstring) :=
  match getByMagicLink token s with
  | None => inl NotFound
  | Some b => inr (b, redirect_target frontendBase b)
  end.

(** Modelled from the spec: the two magic-link routes of the README,
    [GET /appt/{magicLinkId}] and [GET /appt/{magicLinkId}/preview]; a
    token is one path segment. *)
Inductive Route :=
| ResolveRoute (token : jsstring)
| PreviewRoute (token : jsstring)
| OtherRoute.

(** Modelled from the spec: see [Route]; the request target is the URL
    string the client built. *)
Definition route (c : FetchCall) : Route :=
  let is_get := match method c with
                | None => true
                | Some m => bool_decide (m = js "GET")
                end in
  if negb is_get then OtherRoute
  else
    match strip_prefix (apiBaseUrl ++ js "/appt/") (url c) with
    | None => OtherRoute
    | Some rest =>
        match strip_suffix (js "/preview") rest with
        | Some token => PreviewRoute token
        | None =>
            if forallb (fun x => negb (x =? 47)) rest
            then ResolveRoute rest
            else OtherRoute
        end
    end.

(** Modelled from the spec: the JSON bodies of the answers. *)
Definition not_found_body : JsValue :=
  JObj [ (js "success", JBool false); (js "error", JStr (js "Booking not found")) ].

(** Modelled from the spec: the preview answer of section 6,
    [{bookingId, redirectUrl, status, bookingDetails}]. *)
Definition preview_body (b : Booking) (target : jsstring) : JsValue :=
  JObj [ (js "success", JBool true);
         (js "data",
          JObj [ (js "bookingId", JStr (bookingId b));
                 (js "redirectUrl", JStr target);
                 (js "status", JStr (BookingStatus.literal (status b)));
                 (js "bookingDetails",
                  JObj [ (js "id", JStr (internalId b));
                         (js "bookingId", JStr (bookingId b));
                         (js "magicLinkId", JStr (magicLinkId b));
                         (js "status", JStr (BookingStatus.literal (status b)));
                         (js "paymentStatus", JStr (PaymentStatus.literal (payment b)));
                         (js "accessCount", JNum (Z.of_N (accessCount b))) ]) ]) ].

(** Modelled from the spec: the server answering one call. *)
Definition serve (frontendBase : jsstring) (now : N) (s : Store) (c : FetchCall)
  : Store * FetchOutcome :=
  match route c with
  | ResolveRoute token =>
      match resolve frontendBase now token s with
      | (s', inr target) =>
          (s', Resolves (make_response 200 (inr (JStr target))))
      | (s', inl _) =>
          (s', Resolves (make_response 404 (inr not_found_body)))
      end
  | PreviewRoute token =>
      match preview frontendBase token s with
      | inr (b, target) =>
          (s, Resolves (make_response 200 (inr (preview_body b target))))
      | inl _ =>
          (s, Resolves (make_response 404 (inr not_found_body)))
      end
  | OtherRoute =>
      (s, Resolves (make_response 404 (inr not_found_body)))
  end.

(** Modelled from the spec: the store after the server has answered a
    sequence of calls. *)
Definition store_after (frontendBase : jsstring) (now : N) (s : Store)
    (calls : list FetchCall) : Store :=
  fold_left (fun st c => fst (serve frontendBase now st c)) calls s.

End Backend.

(** ** Vocabulary of the properties *)

(** A block of the result: one to four digits. *)
Definition digit_block (b : jsstring) : Prop :=
  (1 <= length b <= 4)%nat /\ forallb is_digit b = true.

(** A world in which nothing has happened yet: the components are mounted,
    no call was made; the callbacks of the parent return. *)
Definition fresh_world (net : list FetchCall -> FetchCall -> FetchOutcome)
    (iso : jsstring -> option jsstring) (now : N) : World :=
  {| respond := net; toISOString := iso; clock := now;
     parent := fun _ => None;
     fetched := []; console := []; timers := []; called := [];
     booking := UseBooking.initial; magicLink := UseMagicLink.initial;
     paymentLoading := false |}.

(** The world after the [catch] branch has logged [e]. *)
Definition logged (e : Thrown) (w1 : World) : World :=
  with_console
    (console w1 ++ [[Text (js "API request failed:"); Caught e]]) w1.

(** The value thrown inside the [try] block of [request] for a response
    that is not ok and whose body parsed to [data]. *)
Definition http_error (r : Response) (data : JsValue) : Thrown :=
  match get_prop data (js "error") with
  | inl e => e
  | inr x =>
      new_Error
        (js_or x (JStr (js "HTTP error! status: " ++ js_of_N (status r))))
  end.

(** The calls of [fetch] the service makes for its operations. *)
Definition json_headers : list (jsstring * jsstring) :=
  [(js "Content-Type", js "application/json")].

Definition create_call (data : BookingFormData) : FetchCall :=
  {| url := apiBaseUrl ++ js "/api/booking/create";
     method := Some (js "POST"); headers := json_headers;
     body := Some (JSON_stringify (BookingFormData_value data)) |}.

Definition confirm_call (uuid : jsstring) : FetchCall :=
  {| url := apiBaseUrl ++ js "/api/booking/confirm/" ++ uuid;
     method := Some (js "POST"); headers := json_headers; body := None |}.

Definition payment_call (uuid : jsstring) (p : PaymentUpdateRequest) : FetchCall :=
  {| url := apiBaseUrl ++ js "/api/booking/payment/" ++ uuid;
     method := Some (js "PUT"); headers := json_headers;
     body := Some (JSON_stringify (PaymentUpdateRequest_value p)) |}.

Definition details_call (uuid : jsstring) : FetchCall :=
  {| url := apiBaseUrl ++ js "/api/booking/" ++ uuid;
     method := None; headers := json_headers; body := None |}.

Definition preview_call (magicLinkId : jsstring) : FetchCall :=
  {| url := apiBaseUrl ++ js "/appt/" ++ magicLinkId ++ js "/preview";
     method := None; headers := json_headers; body := None |}.

Definition track_call (magicLinkId : jsstring) (eventData : JsValue) : FetchCall :=
  {| url := apiBaseUrl ++ js "/appt/" ++ magicLinkId ++ js "/track";
     method := Some (js "POST"); headers := json_headers;
     body := Some (JSON_stringify eventData) |}.

(** A call is a confirm request, or a payment update, of the booking API. *)
Definition is_confirm_request (c : FetchCall) : Prop :=
  exists uuid, c = confirm_call uuid.

Definition is_payment_update (c : FetchCall) : Prop :=
  exists uuid p, c = payment_call uuid p.

(** After an operation of [useBooking] has completed: not loading, and
    success and error exclude each other. *)
Definition settled (s : UseBookingState) : Prop :=
  loading s = false
  /\ (success s = true -> error s = JNull)
  /\ (error s <> JNull -> success s = false).

(** What the user is shown after an operation of [useBooking]: the success
    with no error, or a failure with an error that is truthy, so that the
    [error &&] blocks of the views render it. *)
Definition shown (s : UseBookingState) : Prop :=
  loading s = false
  /\ ((success s = true /\ error s = JNull)
      \/ (success s = false /\ truthy (error s) = true)).

(** What an operation of [useBooking] makes of the value [v] that the
    service returned, in the state [st] it ends in.  A value whose [success]
    cannot be read (when [v] is [null] or [undefined] the read throws) gives
    the message of what was thrown.  A truthy [success], together with a
    truthy [data] for the operations that store it, gives the success.
    Anything else gives [v.error], or the operation's own message when
    [v.error] is falsy. *)
Definition reads_answer (fallback : jsstring) (needs_data : bool)
    (v : JsValue) (st : UseBookingState) : Prop :=
  match get_prop v (js "success") with
  | inl e =>
      success st = false
      /\ error st = JStr (message_or e (js "An unexpected error occurred"))
  | inr s =>
      if truthy s
         && (if needs_data then truthy (get_prop_opt v (js "data")) else true)
      then success st = true /\ error st = JNull
      else success st = false
           /\ error st = js_or (get_prop_opt v (js "error")) (JStr fallback)
  end.

(** The same for [useMagicLink], which has no success flag. *)
Definition ml_shown (s : UseMagicLinkState) : Prop :=
  ml_loading s = false
  /\ (ml_error s = JNull \/ truthy (ml_error s) = true).

(** The payment update [handlePaymentUpdate] sends. *)
Definition payment_update (r : BookingDetails.PaymentResult) (now : N)
  : PaymentUpdateRequest :=
  {| paymentStatus := BookingDetails.as_update_status r;
     paymentId := Some (js "payment_" ++ js_of_N now);
     amount := match r with
               | BookingDetails.completed => Some 100%Z
               | BookingDetails.failed => None
               end;
     currency := match r with
                 | BookingDetails.completed => Some (js "USD")
                 | BookingDetails.failed => None
                 end |}.

(** The world after [n] runs of [m], one after the other. *)
Definition repeatedly (n : nat) (m : Js unit) (w : World) : World :=
  Nat.iter n (fun x => fst (m x)) w.

(** ** Sample worlds

    Concrete networks, forms, views and stores, for the worked runs at the
    end. *)

(** A network on which every call fails, one that always answers with the
    given status and body, and one that answers with text that is not
    JSON. *)
Definition offline : list FetchCall -> FetchCall -> FetchOutcome :=
  fun _ _ => Rejects (new_TypeError (js "Failed to fetch")).

Definition answering (code : N) (data : JsValue)
  : list FetchCall -> FetchCall -> FetchOutcome :=
  fun _ _ => Resolves (make_response code (inr data)).

Definition answering_html (code : N)
  : list FetchCall -> FetchCall -> FetchOutcome :=
  fun _ _ =>
    Resolves (make_response code
                (inl (ErrorObject (js "SyntaxError")
                        (js "Unexpected token '<'")))).

(** A form filled in by the user, and its submission. *)
Definition jane : BookingFormData :=
  {| userName := js "Jane Doe"; userPhone := js "+15551234567";
     appointmentType := js "CONSULTATION";
     appointmentDate := js "2025-03-01T10:00";
     bookingDetails := [] |}.

Definition iso_of_jane (s : jsstring) : option jsstring :=
  if bool_decide (s = js "2025-03-01T10:00")
  then Some (js "2025-03-01T10:00:00.000Z") else None.

Definition created_answer : JsValue :=
  JObj [ (js "success", JBool true);
         (js "data", JObj [ (js "bookingId", JStr (js "booking_1"));
                            (js "uuid", JStr (js "u1"));
                            (js "magicLink",
                             JStr (js "https://tbook-v1.vercel.app/appt/abc"));
                            (js "status", JStr (js "pending_confirmation")) ]) ].

(** The details view showing a booking. *)
Definition showing (status_ payment_ : jsstring) : World :=
  with_booking
    (UseBooking.fetched_details
       (JObj [ (js "bookingId", JStr (js "booking_1"));
               (js "status", JStr status_);
               (js "paymentStatus", JStr payment_) ])
       UseBooking.initial)
    (fresh_world (answering 200 (JObj [ (js "success", JBool true) ]))
       (fun _ => None) 1700000000000).

(** A parent component whose callbacks throw. *)
Definition parent_throws : Callback -> option Thrown :=
  fun _ => Some (ErrorObject (js "Error") (js "parent failed")).

Definition for_u1 : BookingDetails.Props :=
  {| BookingDetails.uuid := Some (js "u1");
     BookingDetails.onPaymentUpdate := true |}.

(** The back end of the specification on a store with one booking. *)
Definition booking_1 : Backend.Booking :=
  {| Backend.internalId := js "u1"; Backend.bookingId := js "booking_1";
     Backend.magicLinkId := js "abc"; Backend.contactName := js "Jane Doe";
     Backend.contactPhone := js "+15551234567";
     Backend.kind := AppointmentType.CONSULTATION;
     Backend.date := js "2025-03-01T10:00:00Z";
     Backend.status := BookingStatus.pending_confirmation;
     Backend.payment := PaymentStatus.pending;
     Backend.createdAt := 1; Backend.confirmedAt := None;
     Backend.lastAccessedAt := None; Backend.accessCount := 0 |}.

Definition store_1 : Backend.Store :=
  {| Backend.bookings := {[ js "u1" := booking_1 ]};
     Backend.links := {[ js "abc" := js "u1" ]} |}.

(** The client previewing against that back end. *)
Definition backend_net (s : Backend.Store)
  : list FetchCall -> FetchCall -> FetchOutcome :=
  fun history c =>
    snd (Backend.serve (js "https://usetextbook.com") 5
           (Backend.store_after (js "https://usetextbook.com") 5 s history) c).

(** * Properties *)

(** ** Strings *)

Section StringFacts.

Lemma digit_not_whitespace (c : N) :
  is_digit c = true -> is_whitespace c = false.
Proof.
  unfold is_digit, is_whitespace. intros H.
  apply andb_prop in H as [Hlo Hhi].
  apply N.leb_le in Hlo. apply N.leb_le in Hhi.
  repeat (apply orb_false_intro);
    try (apply N.eqb_neq; lia).
  apply andb_false_iff. left. apply N.leb_gt. lia.
Qed.

Lemma space_not_digit : is_digit space = false.
Proof. reflexivity. Qed.

Lemma filter_digits_all (s : jsstring) :
  forallb is_digit s = true -> List.filter is_digit s = s.
Proof.
  induction s as [|c s IH]; simpl; [reflexivity|].
  intros H. apply andb_prop in H as [Hc Hs].
  rewrite Hc. f_equal. auto.
Qed.

Lemma forallb_filter_digits (s : jsstring) :
  forallb is_digit (List.filter is_digit s) = true.
Proof.
  induction s as [|c s IH]; simpl; [reflexivity|].
  destruct (is_digit c) eqn:Hc; simpl; [rewrite Hc|]; auto.
Qed.

Lemma forallb_firstn (f : N -> bool) (k : nat) (s : jsstring) :
  forallb f s = true -> forallb f (firstn k s) = true.
Proof.
  revert k. induction s as [|c s IH]; intros [|k]; simpl; auto.
  intros H. apply andb_prop in H as [Hc Hs]. rewrite Hc. simpl. auto.
Qed.

Lemma forallb_skipn (f : N -> bool) (k : nat) (s : jsstring) :
  forallb f s = true -> forallb f (skipn k s) = true.
Proof.
  revert k. induction s as [|c s IH]; intros [|k]; simpl; auto.
  intros H. apply andb_prop in H as [Hc Hs]. auto.
Qed.

Lemma firstn_min_length (k : nat) (s : jsstring) :
  firstn (Nat.min (length s) k) s = firstn k s.
Proof.
  destruct (Nat.le_gt_cases (length s) k) as [H|H].
  - rewrite Nat.min_l by exact H.
    rewrite !firstn_all2; auto.
  - rewrite Nat.min_r by lia. reflexivity.
Qed.

(** The digits of blocks of digits joined by single spaces are the blocks
    put end to end. *)
Lemma digits_of_join (blocks : list jsstring) :
  Forall (fun b => forallb is_digit b = true) blocks ->
  List.filter is_digit (join [space] blocks) = concat blocks.
Proof.
  induction 1 as [|b rest Hb Hrest IH]; [reflexivity|].
  destruct rest as [|b' rest].
  - simpl. rewrite app_nil_r. apply filter_digits_all, Hb.
  - change (join [space] (b :: b' :: rest))
      with (b ++ [space] ++ join [space] (b' :: rest)).
    rewrite !List.filter_app, IH, filter_digits_all by exact Hb.
    reflexivity.
Qed.

Lemma trim_start_whitespace (s : jsstring) :
  forallb is_whitespace s = true -> trim_start s = [].
Proof.
  induction s as [|c s IH]; simpl; [reflexivity|].
  intros H. apply andb_prop in H as [Hc Hs]. rewrite Hc. auto.
Qed.

(** A string made of white space only trims to the empty string. *)
Lemma trim_whitespace (s : jsstring) :
  forallb is_whitespace s = true -> trim s = [].
Proof.
  intros H. unfold trim. rewrite trim_start_whitespace by exact H.
  reflexivity.
Qed.

Lemma trim_start_nil_inv (s : jsstring) :
  trim_start s = [] -> forallb is_whitespace s = true.
Proof.
  induction s as [|c s IH]; simpl; [reflexivity|].
  destruct (is_whitespace c); [auto | discriminate].
Qed.

Lemma trim_start_suffix (s : jsstring) :
  exists p, s = p ++ trim_start s /\ forallb is_whitespace p = true.
Proof.
  induction s as [|c s [p [Hp Hw]]]; simpl.
  - exists []. auto.
  - destruct (is_whitespace c) eqn:Hc.
    + exists (c :: p). simpl. rewrite Hc, Hw. split; [congruence | reflexivity].
    + exists []. auto.
Qed.

(** Conversely, a string that trims to the empty string is white space. *)
Lemma trim_nil_inv (s : jsstring) :
  trim s = [] -> forallb is_whitespace s = true.
Proof.
  unfold trim, trim_end. intros H.
  assert (Hr : trim_start (rev (trim_start s)) = []).
  { destruct (trim_start (rev (trim_start s))) eqn:E; [reflexivity|].
    simpl in H. destruct (rev l); discriminate. }
  apply trim_start_nil_inv in Hr.
  destruct (trim_start_suffix s) as [p [Hp Hw]].
  rewrite Hp, forallb_app, Hw. simpl.
  rewrite forallb_forall in *. intros x Hx. apply Hr.
  apply in_rev. rewrite rev_involutive. exact Hx.
Qed.

End StringFacts.

(** ** The card-number formatter *)

Section FormatCardNumber.

Import PaymentInterface.


Lemma digits_after_cleaning (value : jsstring) :
  remove_non_digits (remove_whitespace value) = List.filter is_digit value.
Proof.
  unfold remove_non_digits, remove_whitespace.
  induction value as [|c s IH]; simpl; [reflexivity|].
  destruct (is_digit c) eqn:Hc.
  - rewrite (digit_not_whitespace c Hc). simpl. rewrite Hc. f_equal. exact IH.
  - destruct (is_whitespace c); simpl; [|rewrite Hc]; exact IH.
Qed.

Lemma take_digits_all (k : nat) (s : jsstring) :
  forallb is_digit s = true -> take_digits k s = firstn k s.
Proof.
  revert s. induction k as [|k IH]; intros [|c s]; simpl; auto.
  intros H. apply andb_prop in H as [Hc Hs]. rewrite Hc. f_equal. auto.
Qed.

Lemma take_digits_length (k : nat) (s : jsstring) :
  (length (take_digits k s) <= length s)%nat.
Proof.
  revert s. induction k as [|k IH]; intros [|c s]; simpl; try lia.
  destruct (is_digit c); simpl; [specialize (IH s)|]; lia.
Qed.

(** Fewer than four code units: the pattern matches nowhere. *)
Lemma first_match_short (s : jsstring) :
  (length s < 4)%nat -> first_match s = None.
Proof.
  induction s as [|c s IH]; [reflexivity|].
  intros H. cbn [first_match].
  pose proof (take_digits_length 16 (c :: s)) as Hl.
  destruct (4 <=? length (take_digits 16 (c :: s)))%nat eqn:E.
  - apply Nat.leb_le in E. lia.
  - apply IH. simpl in H. lia.
Qed.

(** At least four digits and nothing else: the leftmost match starts at
    the first digit and takes sixteen digits, or all there are. *)
Lemma first_match_digits (s : jsstring) :
  forallb is_digit s = true -> (4 <= length s)%nat ->
  first_match s = Some (firstn 16 s).
Proof.
  intros Hd Hn. destruct s as [|c s]; [simpl in Hn; lia|].
  cbn [first_match]. rewrite take_digits_all by exact Hd.
  assert (E : (4 <=? length (firstn 16 (c :: s)))%nat = true).
  { apply Nat.leb_le. rewrite length_firstn. lia. }
  rewrite E. reflexivity.
Qed.

Lemma substring_length (i : nat) (m : jsstring) :
  (i < length m)%nat -> (1 <= length (substring i (i + 4) m) <= 4)%nat.
Proof.
  intros H. unfold substring. rewrite length_firstn, length_skipn. lia.
Qed.

(** The loop cuts the rest of [m] from index [i] on into blocks, provided
    the fuel covers what is left. *)
Lemma chunk_loop_spec (m : jsstring) :
  forallb is_digit m = true ->
  forall (fuel i : nat) (parts : list jsstring),
    (length m - i <= fuel)%nat ->
    exists blocks,
      chunk_loop fuel i m parts = parts ++ blocks
      /\ concat blocks = skipn i m
      /\ Forall digit_block blocks
      /\ ((i < length m)%nat -> blocks <> []).
Proof.
  intros Hd. induction fuel as [|fuel IH]; intros i parts Hfuel.
  - exists []. simpl. rewrite app_nil_r.
    repeat split; auto; try lia.
    symmetry. apply skipn_all2. lia.
  - cbn [chunk_loop]. destruct (i <? length m)%nat eqn:Hi.
    + apply Nat.ltb_lt in Hi.
      destruct (IH (i + 4)%nat (parts ++ [substring i (i + 4) m]))
        as [blocks [Hrun [Hcat [Hall _]]]]; [lia|].
      exists (substring i (i + 4) m :: blocks).
      rewrite Hrun, <- app_assoc. repeat split.
      * simpl. rewrite Hcat. unfold substring.
        replace (i + 4 - i)%nat with 4%nat by lia.
        replace (i + 4)%nat with (4 + i)%nat by lia.
        rewrite <- skipn_skipn. apply firstn_skipn.
      * constructor; [|exact Hall]. split.
        -- apply substring_length, Hi.
        -- unfold substring. apply forallb_firstn, forallb_skipn, Hd.
      * discriminate.
    + apply Nat.ltb_ge in Hi. exists []. rewrite app_nil_r.
      repeat split; auto; try lia.
      symmetry. apply skipn_all2. lia.
Qed.

(** More fuel than the loop needs changes nothing: the loop stops by its
    own test. *)
Lemma chunk_loop_fuel (m : jsstring) (f1 f2 i : nat) (parts : list jsstring) :
  (length m - i <= f1)%nat -> (length m - i <= f2)%nat ->
  chunk_loop f1 i m parts = chunk_loop f2 i m parts.
Proof.
  revert f2 i parts. induction f1 as [|f1 IH]; intros [|f2] i parts H1 H2;
    cbn [chunk_loop]; try reflexivity.
  - destruct (i <? length m)%nat eqn:Hi; [|reflexivity].
    apply Nat.ltb_lt in Hi. lia.
  - destruct (i <? length m)%nat eqn:Hi; [|reflexivity].
    apply Nat.ltb_lt in Hi. lia.
  - destruct (i <? length m)%nat eqn:Hi; [|reflexivity].
    apply Nat.ltb_lt in Hi. apply IH; lia.
Qed.

End FormatCardNumber.

(** C10. For every input string, [formatCardNumber] returns blocks of one to
    four decimal digits separated by single spaces; with [n >= 4] digits in
    the input the digits of the result are the first [min n 16] digits of
    the input, and with [n < 4] the result is those [n] digits, with no
    separator. *)
Theorem formatCardNumber_blocks (s : jsstring) :
  let digits := List.filter is_digit s in
  let n := length digits in
  let r := PaymentInterface.formatCardNumber s in
  (exists blocks, r = join [space] blocks /\ Forall digit_block blocks)
  /\ ((4 <= n)%nat ->
      List.filter is_digit r = firstn (Nat.min n 16) digits)
  /\ ((n < 4)%nat -> r = digits).
Proof.
  intros digits n r. subst r. unfold PaymentInterface.formatCardNumber.
  rewrite digits_after_cleaning. fold digits.
  assert (Hd : forallb is_digit digits = true) by apply forallb_filter_digits.
  destruct (Nat.le_gt_cases 4 n) as [Hn|Hn].
  - rewrite (first_match_digits digits Hd Hn).
    change (default [] (Some (firstn 16 digits))) with (firstn 16 digits).
    set (m := firstn 16 digits).
    assert (Hm : forallb is_digit m = true) by (apply forallb_firstn, Hd).
    assert (Hlen : (4 <= length m)%nat).
    { subst m. rewrite length_firstn. fold n. lia. }
    destruct (chunk_loop_spec m Hm (length m) 0 [])
      as [blocks [Hrun [Hcat [Hall Hne]]]]; [lia|].
    rewrite Hrun. cbn [app].
    assert (Hpos : (0 <? length blocks)%nat = true).
    { destruct blocks; [exfalso; apply Hne; [lia | reflexivity] | reflexivity]. }
    rewrite Hpos. split; [|split].
    + exists blocks. auto.
    + intros _. rewrite digits_of_join.
      * rewrite Hcat. cbn [skipn]. subst m n.
        rewrite firstn_min_length. reflexivity.
      * eapply List.Forall_impl; [|exact Hall]. intros b [_ Hb]. exact Hb.
    + intros Hlt. lia.
  - rewrite (first_match_short digits Hn).
    change (default [] (@None jsstring)) with (@nil N). cbn [length PaymentInterface.chunk_loop Nat.ltb Nat.leb].
    split; [|split]; [| intros; lia | reflexivity].
    destruct digits as [|c d] eqn:E.
    + exists []. split; [reflexivity | constructor].
    + exists [c :: d]. split; [reflexivity|].
      constructor; [|constructor]. split; [|exact Hd].
      subst n. simpl in *. lia.
Qed.

(** ** The request layer *)

(** Two hypotheses on the same left-hand side: rewrite one with the other. *)
Ltac same_lhs :=
  repeat match goal with
         | H1 : ?a = _, H2 : ?a = _ |- _ => rewrite H1 in H2
         end.


Section Request.

Variables (endpoint : jsstring) (options : RequestInit) (w : World).

Let c : FetchCall := ApiService.fetch_init (apiBaseUrl ++ endpoint) options.
Let sent : World := with_fetched (fetched w ++ [c]) w.

(** [request], case by case on what the environment answers. *)
Lemma request_run :
  ApiService.request endpoint options w =
    match respond w (fetched w) c with
    | Rejects e => (logged e sent, Normal (ApiService.failure e))
    | Resolves r =>
        match json r with
        | inl e => (logged e sent, Normal (ApiService.failure e))
        | inr data =>
            if ok r then (sent, Normal data)
            else (logged (http_error r data) sent,
                  Normal (ApiService.failure (http_error r data)))
        end
    end.
Proof.
  unfold ApiService.request, try_catch, mbind, Js_bind, fetch, response_json.
  fold c. fold sent.
  destruct (respond w (fetched w) c) as [e|r]; [reflexivity|].
  unfold http_error.
  destruct (json r) as [e|data]; [reflexivity|].
  unfold mret, Js_ret.
  destruct (ok r); [reflexivity|]. cbn [negb].
  unfold get. destruct (get_prop data (js "error")); reflexivity.
Qed.

(** [request] always returns, and it touches nothing but the call log and
    the console. *)
Lemma request_returns :
  exists v cs,
    ApiService.request endpoint options w
    = (with_console cs sent, Normal v).
Proof.
  rewrite request_run.
  assert (Hid : with_console (console sent) sent = sent)
    by (subst sent; destruct w; reflexivity).
  destruct (respond w (fetched w) c) as [e|r].
  - eexists _, _. reflexivity.
  - destruct (json r) as [e|data].
    + eexists _, _. reflexivity.
    + destruct (ok r).
      * exists data, (console sent). rewrite Hid. reflexivity.
      * eexists _, _. reflexivity.
Qed.

End Request.

Lemma failure_members (e : Thrown) :
  get_prop (ApiService.failure e) (js "success") = inr (JBool false)
  /\ get_prop (ApiService.failure e) (js "error")
     = inr (JStr (message_or e (js "Unknown error occurred"))).
Proof. split; reflexivity. Qed.

Lemma http_status_message_nonempty (code : N) :
  js "HTTP error! status: " ++ js_of_N code <> [].
Proof. discriminate. Qed.

(** The message of the error thrown for a response that is not ok is not
    empty when the [error] member of the body is falsy (then the status
    line is used) or a string. *)
Lemma http_error_message (r : Response) (fields : list (jsstring * JsValue)) :
  let x := lookup_field (js "error") fields in
  truthy x = false \/ (exists s, x = JStr s) ->
  exists m,
    http_error r (JObj fields) = ErrorObject (js "Error") m /\ m <> [].
Proof.
  intros x Hx. unfold http_error. cbn [get_prop]. fold x.
  unfold new_Error, js_or. destruct Hx as [Hf|[s Hs]].
  - rewrite Hf. eexists. split; [reflexivity|]. discriminate.
  - rewrite Hs. destruct s as [|a s].
    + eexists. split; [reflexivity|]. discriminate.
    + eexists. split; [reflexivity|]. discriminate.
Qed.

(** C4, as amended. [ApiService.request] always returns a value and never
    throws.  When [fetch] rejects, when [response.json()] rejects, or when
    the response is not ok, the value is [{success: false, error: m}], with
    [m] the message of the caught [Error] or ['Unknown error occurred'] for
    any other caught value.  For a response that is not ok and whose body
    is an object, [m] is not empty when the body's [error] member is falsy
    or a string. *)
Theorem request_never_throws (endpoint : jsstring) (options : RequestInit)
    (w : World) :
  let c := ApiService.fetch_init (apiBaseUrl ++ endpoint) options in
  exists w' v,
    ApiService.request endpoint options w = (w', Normal v)
    /\ (forall e, respond w (fetched w) c = Rejects e ->
        v = JObj [ (js "success", JBool false);
                   (js "error", JStr (message_or e (js "Unknown error occurred"))) ])
    /\ (forall r e, respond w (fetched w) c = Resolves r -> json r = inl e ->
        v = JObj [ (js "success", JBool false);
                   (js "error", JStr (message_or e (js "Unknown error occurred"))) ])
    /\ (forall r data,
          respond w (fetched w) c = Resolves r -> json r = inr data ->
          ok r = false ->
          v = JObj [ (js "success", JBool false);
                     (js "error",
                      JStr (message_or (http_error r data)
                              (js "Unknown error occurred"))) ])
    /\ (forall r fields,
          respond w (fetched w) c = Resolves r -> json r = inr (JObj fields) ->
          ok r = false ->
          truthy (lookup_field (js "error") fields) = false
          \/ (exists s, lookup_field (js "error") fields = JStr s) ->
          exists m,
            v = JObj [ (js "success", JBool false); (js "error", JStr m) ]
            /\ m <> []).
Proof.
  intros c. rewrite request_run. fold c.
  destruct (respond w (fetched w) c) as [e|r] eqn:Hnet;
    [| destruct (json r) as [e|data] eqn:Hjson;
       [| destruct (ok r) eqn:Hok ] ];
    eexists _, _; (split; [reflexivity|]);
    repeat split; intros; repeat (progress (same_lhs; simplify_eq));
    try reflexivity.
  match goal with
  | H : truthy _ = false \/ _ |- context [http_error ?r0 (JObj ?fs)] =>
      destruct (http_error_message r0 fs H) as [m [Hm Hne]]
  end.
  exists m. split; [|exact Hne].
  unfold ApiService.failure. rewrite Hm. reflexivity.
Qed.

(** C4 as stated fails: a server that answers 500 with the body
    [{"error": []}] makes [request] return an empty error message, since
    [[]] is truthy and prints as the empty string. *)
Lemma request_empty_error_message :
  let answer := make_response 500 (inr (JObj [ (js "error", JArr []) ])) in
  let w := fresh_world (fun _ _ => Resolves answer) (fun _ => None) 0 in
  ok answer = false
  /\ snd (ApiService.request (js "/health") no_options w)
     = Normal (JObj [ (js "success", JBool false); (js "error", JStr []) ]).
Proof. split; reflexivity. Qed.

(** ** The hooks *)

Lemma settled_created (d : JsValue) (s : UseBookingState) :
  settled (UseBooking.created d s).
Proof. repeat split; auto. intros H. contradiction. Qed.

Lemma settled_succeeded (s : UseBookingState) :
  settled (UseBooking.succeeded s).
Proof. repeat split; auto. intros H. contradiction. Qed.

Lemma settled_fetched_details (d : JsValue) (s : UseBookingState) :
  settled (UseBooking.fetched_details d s).
Proof. repeat split; auto. intros H. contradiction. Qed.

(** Whatever the error value, also one that is falsy. *)
Lemma settled_failed (e : JsValue) (s : UseBookingState) :
  settled (UseBooking.failed e s).
Proof. repeat split; auto. discriminate. Qed.

Create HintDb hooks.

#[local] Hint Resolve settled_created settled_succeeded
  settled_fetched_details settled_failed : hooks.

(** Symbolic execution of a computation: unfold the combinators, replace a
    call of [request] by its result, split on what the response holds. *)
Ltac unfold_js :=
  cbv beta iota zeta
    delta [mbind Js_bind mret Js_ret try_catch try_finally throw get js_and
           modify reads console_error setTimeout call_back Date_now].

Ltac case_js :=
  unfold_js;
  match goal with
  | |- context [match get_prop ?v ?k with _ => _ end] =>
      destruct (get_prop v k) eqn:?
  | |- context [if truthy ?v then _ else _] => destruct (truthy v) eqn:?
  end.

Ltac run_request :=
  match goal with
  | |- context [ApiService.request ?e ?o ?w1] =>
      let v := fresh "v" in
      let cs := fresh "cs" in
      let Hrun := fresh "Hrun" in
      destruct (request_returns e o w1) as [v [cs Hrun]]; rewrite Hrun;
      clear Hrun
  end.

Ltac run_hook :=
  unfold_js; run_request; repeat case_js; unfold_js;
  (eexists; split; [reflexivity|]);
  do 3 (split; [reflexivity|]);
  cbn [booking with_booking]; auto with hooks.

(** What an operation of [useBooking] does: it returns, it makes its one
    call, it leaves the hook settled and the other hook alone. *)
Lemma createBooking_effect (data : BookingFormData) (w : World) :
  exists w',
    UseBooking.createBooking data w = (w', Normal tt)
    /\ fetched w' = fetched w ++ [create_call data]
    /\ called w' = called w
    /\ magicLink w' = magicLink w
    /\ settled (booking w').
Proof.
  unfold UseBooking.createBooking, UseBooking.caught, UseBooking.setState,
    ApiService.createBooking.
  run_hook.
Qed.

Lemma confirmBooking_effect (uuid : jsstring) (w : World) :
  exists w',
    UseBooking.confirmBooking uuid w = (w', Normal tt)
    /\ fetched w' = fetched w ++ [confirm_call uuid]
    /\ called w' = called w
    /\ magicLink w' = magicLink w
    /\ settled (booking w').
Proof.
  unfold UseBooking.confirmBooking, UseBooking.caught, UseBooking.setState,
    ApiService.confirmBooking.
  run_hook.
Qed.

Lemma updatePayment_effect (uuid : jsstring) (p : PaymentUpdateRequest)
    (w : World) :
  exists w',
    UseBooking.updatePayment uuid p w = (w', Normal tt)
    /\ fetched w' = fetched w ++ [payment_call uuid p]
    /\ called w' = called w
    /\ magicLink w' = magicLink w
    /\ settled (booking w').
Proof.
  unfold UseBooking.updatePayment, UseBooking.caught, UseBooking.setState,
    ApiService.updatePaymentStatus.
  run_hook.
Qed.

Lemma getBookingDetails_effect (uuid : jsstring) (w : World) :
  exists w',
    UseBooking.getBookingDetails uuid w = (w', Normal tt)
    /\ fetched w' = fetched w ++ [details_call uuid]
    /\ called w' = called w
    /\ magicLink w' = magicLink w
    /\ settled (booking w').
Proof.
  unfold UseBooking.getBookingDetails, UseBooking.caught, UseBooking.setState,
    ApiService.getBookingDetails.
  run_hook.
Qed.

(** C9. After [createBooking], [confirmBooking], [updatePayment] or
    [getBookingDetails] of [useBooking] has completed, from any state and
    whatever the network answered, [loading] is false, [success = true]
    implies [error = null], and a non-null [error] implies
    [success = false].  The same holds right after each updater the
    operations end with, from any state it is applied to. *)
Theorem useBooking_settled (w : World) :
  (forall data, exists w',
      UseBooking.createBooking data w = (w', Normal tt) /\ settled (booking w'))
  /\ (forall uuid, exists w',
      UseBooking.confirmBooking uuid w = (w', Normal tt) /\ settled (booking w'))
  /\ (forall uuid p, exists w',
      UseBooking.updatePayment uuid p w = (w', Normal tt) /\ settled (booking w'))
  /\ (forall uuid, exists w',
      UseBooking.getBookingDetails uuid w = (w', Normal tt) /\ settled (booking w'))
  /\ (forall d e prev,
      settled (UseBooking.created d prev)
      /\ settled (UseBooking.succeeded prev)
      /\ settled (UseBooking.fetched_details d prev)
      /\ settled (UseBooking.failed e prev)).
Proof.
  repeat split.
  - intros data. destruct (createBooking_effect data w) as [w' H].
    exists w'. tauto.
  - intros uuid. destruct (confirmBooking_effect uuid w) as [w' H].
    exists w'. tauto.
  - intros uuid p. destruct (updatePayment_effect uuid p w) as [w' H].
    exists w'. tauto.
  - intros uuid. destruct (getBookingDetails_effect uuid w) as [w' H].
    exists w'. tauto.
  - apply settled_created.
  - apply settled_succeeded.
  - apply settled_fetched_details.
  - apply settled_failed.
Qed.

(** C5. [trackEvent] returns normally whatever the track request did, and
    leaves the state of the hook as it was: [loading], [error], [preview]
    and [analytics] are unchanged (and so is the state of [useBooking]). *)
Theorem trackEvent_silent (magicLinkId : jsstring) (eventData : JsValue)
    (w : World) :
  exists w',
    UseMagicLink.trackEvent magicLinkId eventData w = (w', Normal tt)
    /\ magicLink w' = magicLink w
    /\ booking w' = booking w
    /\ fetched w' = fetched w ++ [track_call magicLinkId eventData].
Proof.
  unfold UseMagicLink.trackEvent, ApiService.trackMagicLinkEvent.
  unfold_js. run_request. unfold_js.
  eexists. split; [reflexivity|]. repeat split.
Qed.

(** The [catch] branch of [trackEvent] only writes to the console. *)
Lemma trackEvent_catch_silent (e : Thrown) (w : World) :
  let w' := fst (console_error [Text (js "Failed to track event:"); Caught e] w) in
  magicLink w' = magicLink w /\ booking w' = booking w /\ fetched w' = fetched w.
Proof. repeat split. Qed.

(** ** Magic links *)

Lemma strip_prefix_app (p s : jsstring) : strip_prefix p (p ++ s) = Some s.
Proof.
  induction p as [|a p IH]; [destruct s; reflexivity|].
  simpl. rewrite N.eqb_refl. exact IH.
Qed.

Lemma strip_suffix_app (p s : jsstring) : strip_suffix p (s ++ p) = Some s.
Proof.
  unfold strip_suffix. rewrite rev_app_distr, strip_prefix_app.
  simpl. rewrite rev_involutive. reflexivity.
Qed.

(** The call [previewMagicLink] makes is routed to the preview route. *)
Lemma route_preview_call (magicLinkId : jsstring) :
  Backend.route (preview_call magicLinkId) = Backend.PreviewRoute magicLinkId.
Proof.
  unfold Backend.route, preview_call. cbn [method url negb].
  rewrite (app_assoc apiBaseUrl), strip_prefix_app, strip_suffix_app.
  reflexivity.
Qed.

(** The URL of a preview is not the magic link of the token itself, which
    is the URL of the resolve route. *)
Lemma preview_url_not_resolve_url (magicLinkId : jsstring) :
  url (preview_call magicLinkId) <> ApiService.getMagicLinkUrl magicLinkId.
Proof.
  unfold preview_call, ApiService.getMagicLinkUrl. cbn [url concat].
  rewrite app_nil_r. intros H.
  apply app_inv_head in H. apply app_inv_head in H.
  apply (f_equal (@length N)) in H. rewrite length_app in H.
  cbn [length js List.map list_ascii_of_string] in H. lia.
Qed.

(** The server answering a call on the preview route keeps its store. *)
Lemma serve_preview (frontendBase : jsstring) (now : N) (s : Backend.Store)
    (magicLinkId : jsstring) :
  fst (Backend.serve frontendBase now s (preview_call magicLinkId)) = s.
Proof.
  unfold Backend.serve. rewrite route_preview_call.
  destruct (Backend.preview frontendBase magicLinkId s) as [e|[b target]];
    reflexivity.
Qed.

(** By contrast, resolving a known token counts one access. *)
Lemma resolve_counts (frontendBase : jsstring) (now : N) (token : jsstring)
    (s : Backend.Store) (b : Backend.Booking) :
  Backend.getByMagicLink token s = Some b ->
  Backend.bookings (fst (Backend.resolve frontendBase now token s))
    !! Backend.internalId b
  = Some (Backend.accessed now b)
  /\ Backend.accessCount (Backend.accessed now b) = Backend.accessCount b + 1.
Proof.
  intros H. unfold Backend.resolve. rewrite H. cbn.
  split; [apply lookup_insert_eq | reflexivity].
Qed.

Lemma store_after_app (frontendBase : jsstring) (now : N) (s : Backend.Store)
    (calls more : list FetchCall) :
  Backend.store_after frontendBase now s (calls ++ more)
  = Backend.store_after frontendBase now
      (Backend.store_after frontendBase now s calls) more.
Proof. unfold Backend.store_after. apply fold_left_app. Qed.

Lemma previewMagicLink_effect (magicLinkId : jsstring) (w : World) :
  exists w',
    UseMagicLink.previewMagicLink magicLinkId w = (w', Normal tt)
    /\ fetched w' = fetched w ++ [preview_call magicLinkId]
    /\ analytics (magicLink w') = analytics (magicLink w)
    /\ booking w' = booking w.
Proof.
  unfold UseMagicLink.previewMagicLink, UseMagicLink.caught,
    UseMagicLink.setState, ApiService.previewMagicLink.
  unfold_js. run_request. repeat case_js; unfold_js;
    (eexists; split; [reflexivity|]); repeat split.
Qed.

Lemma repeatedly_S (n : nat) (m : Js unit) (w : World) :
  repeatedly (S n) m w = fst (m (repeatedly n m w)).
Proof. reflexivity. Qed.

(** Any number of previews leaves the store of the server as it was. *)
Lemma previews_keep_store (frontendBase : jsstring) (now : N)
    (s : Backend.Store) (magicLinkId : jsstring) (n : nat) (w : World) :
  Backend.store_after frontendBase now s
    (fetched (repeatedly n (UseMagicLink.previewMagicLink magicLinkId) w))
  = Backend.store_after frontendBase now s (fetched w).
Proof.
  induction n as [|n IH]; [reflexivity|].
  rewrite repeatedly_S.
  set (wn := repeatedly n _ w) in *.
  destruct (previewMagicLink_effect magicLinkId wn) as [w' [Hrun [Hlog _]]].
  rewrite Hrun. cbn [fst]. rewrite Hlog, store_after_app, IH.
  unfold Backend.store_after at 1. cbn [fold_left].
  apply serve_preview.
Qed.

(** C6. Previewing a magic link is a read.  [previewMagicLink] makes one
    call, the GET of the preview route and not the resolve route; it
    changes only [preview], [loading] and [error] of the hook state; and
    after any number of previews the store of the server, and with it every
    [accessCount], is what it was. *)
Theorem previewMagicLink_reads (magicLinkId : jsstring) (w : World) :
  (exists w',
      UseMagicLink.previewMagicLink magicLinkId w = (w', Normal tt)
      /\ fetched w' = fetched w ++ [preview_call magicLinkId]
      /\ analytics (magicLink w') = analytics (magicLink w)
      /\ booking w' = booking w)
  /\ method (preview_call magicLinkId) = None
  /\ url (preview_call magicLinkId) <> ApiService.getMagicLinkUrl magicLinkId
  /\ Backend.route (preview_call magicLinkId) = Backend.PreviewRoute magicLinkId
  /\ (forall frontendBase now s n,
        let before := Backend.store_after frontendBase now s (fetched w) in
        let after :=
          Backend.store_after frontendBase now s
            (fetched (repeatedly n (UseMagicLink.previewMagicLink magicLinkId) w)) in
        after = before
        /\ forall token,
            Backend.accessCount <$> Backend.getByMagicLink token after
            = Backend.accessCount <$> Backend.getByMagicLink token before).
Proof.
  split; [apply previewMagicLink_effect|].
  split; [reflexivity|].
  split; [apply preview_url_not_resolve_url|].
  split; [apply route_preview_call|].
  intros frontendBase now s n before after.
  assert (H : after = before) by apply previews_keep_store.
  split; [exact H|]. intros token. rewrite H. reflexivity.
Qed.

(** ** The booking form *)

Lemma is_empty_true (s : jsstring) : BookingForm.is_empty s = true <-> s = [].
Proof. destruct s; simpl; split; intros H; auto; discriminate. Qed.

Lemma is_empty_false (s : jsstring) : BookingForm.is_empty s = false <-> s <> [].
Proof. destruct s; simpl; split; intros H; auto; try discriminate; contradiction. Qed.

(** C7. On a submission of the booking form whose [userName] or [userPhone]
    is empty or white space only, or whose [appointmentDate] is empty, no
    call is made.  A call is made only when both contact fields are not
    empty after trimming and a date is present; it is then the one
    [createBooking] request, with the date in ISO form. *)
Theorem handleSubmit_guards (onSubmit : bool) (formData : BookingFormData)
    (w : World) :
  exists w' new,
    BookingForm.handleSubmit onSubmit formData w = (w', Normal tt)
    /\ fetched w' = fetched w ++ new
    /\ (forallb is_whitespace (userName formData) = true
        \/ forallb is_whitespace (userPhone formData) = true
        \/ appointmentDate formData = [] ->
        new = [])
    /\ (new <> [] ->
        trim (userName formData) <> []
        /\ trim (userPhone formData) <> []
        /\ appointmentDate formData <> []
        /\ exists iso,
            toISOString w (appointmentDate formData) = Some iso
            /\ new = [create_call (BookingForm.formatted formData iso)]).
Proof.
  unfold BookingForm.handleSubmit, UseBooking.clearState, UseBooking.setState.
  unfold_js.
  destruct (BookingForm.is_empty (trim (userName formData))) eqn:Hname.
  { exists (with_console
              (console (with_booking UseBooking.initial w)
                 ++ [[Text (js "User name is required")]])
              (with_booking UseBooking.initial w)), [].
    rewrite app_nil_r. repeat split; auto; contradiction. }
  destruct (BookingForm.is_empty (trim (userPhone formData))) eqn:Hphone.
  { exists (with_console
              (console (with_booking UseBooking.initial w)
                 ++ [[Text (js "Phone number is required")]])
              (with_booking UseBooking.initial w)), [].
    rewrite app_nil_r. repeat split; auto; contradiction. }
  destruct (BookingForm.is_empty (appointmentDate formData)) eqn:Hdate.
  { exists (with_console
              (console (with_booking UseBooking.initial w)
                 ++ [[Text (js "Appointment date is required")]])
              (with_booking UseBooking.initial w)), [].
    rewrite app_nil_r. repeat split; auto; contradiction. }
  apply is_empty_false in Hname, Hphone, Hdate.
  assert (Hguard :
            forallb is_whitespace (userName formData) = true
            \/ forallb is_whitespace (userPhone formData) = true
            \/ appointmentDate formData = [] -> False).
  { intros [H|[H|H]].
    - apply Hname, trim_whitespace, H.
    - apply Hphone, trim_whitespace, H.
    - apply Hdate, H. }
  unfold Date_toISOString. cbn [toISOString with_booking].
  destruct (toISOString w (appointmentDate formData)) as [iso|] eqn:Hiso.
  - destruct (createBooking_effect (BookingForm.formatted formData iso)
                (with_booking UseBooking.initial w))
      as [w1 [Hrun [Hlog _]]].
    rewrite Hrun. cbn [fetched with_booking] in Hlog.
    destruct onSubmit; unfold_js;
      try destruct (parent w1 (OnSubmit (BookingForm.formatted formData iso)));
      (eexists _, [create_call (BookingForm.formatted formData iso)];
       split; [reflexivity|]);
      (split; [exact Hlog|]);
      (split; [intros H; destruct (Hguard H)|]);
      intros _; repeat split; auto; exists iso; auto.
  - eexists _, []. split; [reflexivity|]. cbn [fetched with_console with_booking].
    rewrite app_nil_r. repeat split; auto; try contradiction.
Qed.

(** ** Enumerations *)

(** C3 as stated fails: the appointment type of the unedited form, which a
    submission carries, is ["CONSULTATION"], and that is none of the
    lower-case strings of the claim. *)
Lemma appointmentType_not_lowercase :
  appointmentType (BookingForm.initialFormData []) = js "CONSULTATION"
  /\ AppointmentType.literal AppointmentType.CONSULTATION = js "CONSULTATION"
  /\ ~ In (js "CONSULTATION")
       [js "consultation"; js "tutorial"; js "assessment";
        js "group_session"; js "workshop"].
Proof.
  split; [reflexivity|]. split; [reflexivity|].
  intros H. repeat (destruct H as [H|H]; [discriminate H|]). exact H.
Qed.

Lemma appointmentType_reachable (today : jsstring) (d : BookingFormData) :
  BookingForm.reachable today d ->
  In (appointmentType d) (List.map fst BookingForm.appointmentTypeOptions).
Proof.
  induction 1 as [|e d Hd IH He].
  - left. reflexivity.
  - destruct e as [v|v|o|v|f v]; try exact IH.
    change (In (fst o) (List.map fst BookingForm.appointmentTypeOptions)).
    apply in_map. exact He.
Qed.

(** C3, as amended. Every appointmentType of the type [AppointmentType], of
    a form state the user can reach, and of the body of a creation request,
    is one of the upper-case strings CONSULTATION, TUTORIAL, ASSESSMENT,
    GROUP_SESSION, WORKSHOP, and each of these is a value of the type. *)
Theorem appointmentType_values :
  let values := [js "CONSULTATION"; js "TUTORIAL"; js "ASSESSMENT";
                 js "GROUP_SESSION"; js "WORKSHOP"] in
  (forall a : AppointmentType.t, In (AppointmentType.literal a) values)
  /\ (forall s, In s values -> exists a, AppointmentType.literal a = s)
  /\ List.map fst BookingForm.appointmentTypeOptions = values
  /\ (forall today d, BookingForm.reachable today d ->
        In (appointmentType d) values)
  /\ (forall d iso,
        lookup_field (js "appointmentType")
          (match BookingFormData_value (BookingForm.formatted d iso) with
           | JObj fields => fields
           | _ => []
           end)
        = JStr (appointmentType d)).
Proof.
  intros values. split; [|split; [|split; [|split]]].
  - intros []; subst values; simpl; tauto.
  - intros s H. subst values.
    destruct H as [H|[H|[H|[H|[H|[]]]]]]; subst s.
    + exists AppointmentType.CONSULTATION. reflexivity.
    + exists AppointmentType.TUTORIAL. reflexivity.
    + exists AppointmentType.ASSESSMENT. reflexivity.
    + exists AppointmentType.GROUP_SESSION. reflexivity.
    + exists AppointmentType.WORKSHOP. reflexivity.
  - reflexivity.
  - intros today d H. apply (appointmentType_reachable today d H).
  - intros d iso. reflexivity.
Qed.

(** C2 as stated fails: [processing] is a payment status, and no payment
    update request carries it. *)
Lemma processing_not_representable :
  In (js "processing") (List.map PaymentStatus.literal PaymentStatus.all)
  /\ ~ (exists r : PaymentUpdateRequest,
          PaymentUpdateStatus.literal (paymentStatus r) = js "processing").
Proof.
  split; [simpl; tauto|].
  intros [r H]. destruct (paymentStatus r); discriminate H.
Qed.

(** C2, as amended. The paymentStatus of a payment update request is one of
    pending, completed, failed and refunded; each of these four is
    representable, and each is one of the five values of [PaymentStatus].
    The body of the request carries that string. *)
Theorem paymentUpdate_status_values :
  let values := [js "pending"; js "completed"; js "failed"; js "refunded"] in
  (forall r : PaymentUpdateRequest,
      In (PaymentUpdateStatus.literal (paymentStatus r)) values
      /\ In (PaymentUpdateStatus.literal (paymentStatus r))
           (List.map PaymentStatus.literal PaymentStatus.all)
      /\ get_prop (PaymentUpdateRequest_value r) (js "paymentStatus")
         = inr (JStr (PaymentUpdateStatus.literal (paymentStatus r))))
  /\ (forall s, In s values ->
        exists r : PaymentUpdateRequest,
          PaymentUpdateStatus.literal (paymentStatus r) = s)
  /\ List.map PaymentUpdateStatus.literal PaymentUpdateStatus.all = values.
Proof.
  intros values. split; [|split].
  - intros r. split; [|split].
    + destruct (paymentStatus r); subst values; simpl; tauto.
    + destruct (paymentStatus r); simpl; tauto.
    + reflexivity.
  - intros s H. subst values.
    assert (Hall : exists st, PaymentUpdateStatus.literal st = s).
    { destruct H as [H|[H|[H|[H|[]]]]]; subst s.
      - exists PaymentUpdateStatus.pending. reflexivity.
      - exists PaymentUpdateStatus.completed. reflexivity.
      - exists PaymentUpdateStatus.failed. reflexivity.
      - exists PaymentUpdateStatus.refunded. reflexivity. }
    destruct Hall as [st Hst].
    exists {| paymentStatus := st; paymentId := None; amount := None;
              currency := None |}.
    exact Hst.
  - reflexivity.
Qed.

(** ** Magic-link URLs *)

Lemma getMagicLinkUrl_concat (magicLinkId : jsstring) :
  ApiService.getMagicLinkUrl magicLinkId
  = magicLinkBaseUrl ++ js "/appt/" ++ magicLinkId.
Proof.
  unfold ApiService.getMagicLinkUrl. cbn [concat].
  rewrite app_nil_r. reflexivity.
Qed.

(** Different ids give different URLs. *)
Lemma getMagicLinkUrl_injective (a b : jsstring) :
  ApiService.getMagicLinkUrl a = ApiService.getMagicLinkUrl b -> a = b.
Proof.
  rewrite !getMagicLinkUrl_concat. intros H.
  apply app_inv_head in H. apply app_inv_head in H. exact H.
Qed.

(** C8. [getMagicLinkUrl] returns the magic-link base URL followed by
    ["/appt/"] and the magic-link id, the shape [base/appt/id] of the
    [magicLink] of a create response; the id can be read back from it. *)
Theorem getMagicLinkUrl_shape (magicLinkId : jsstring) :
  ApiService.getMagicLinkUrl magicLinkId
  = magicLinkBaseUrl ++ js "/appt/" ++ magicLinkId
  /\ ApiService.getMagicLinkUrl magicLinkId
     = js "https://tbook-v1.vercel.app/appt/" ++ magicLinkId
  /\ strip_prefix (magicLinkBaseUrl ++ js "/appt/")
       (ApiService.getMagicLinkUrl magicLinkId)
     = Some magicLinkId.
Proof.
  pose proof (getMagicLinkUrl_concat magicLinkId) as H.
  split; [exact H|]. split; [rewrite H; reflexivity|].
  rewrite H, (app_assoc magicLinkBaseUrl). apply strip_prefix_app.
Qed.


(** ** Status transitions *)

Lemma strict_eq_str_true (v : JsValue) (s : jsstring) :
  strict_eq_str v s = true -> v = JStr s.
Proof.
  destruct v; simpl; try discriminate.
  intros H. apply bool_decide_eq_true in H. congruence.
Qed.

(** The buttons are rendered by the displayed status. *)
Lemma confirm_button_rendered (w : World) :
  In BookingDetails.ConfirmButton (BookingDetails.action_buttons w) ->
  BookingDetails.displayed_status w = JStr (js "pending_confirmation").
Proof.
  unfold BookingDetails.action_buttons.
  destruct (loading (booking w)); [intros []|].
  destruct (truthy (error (booking w))); [intros []|].
  destruct (negb (truthy (bookingDetails_ (booking w)))); [intros []|].
  destruct (strict_eq_str (BookingDetails.displayed_status w)
              (js "pending_confirmation")) eqn:Hs.
  - intros _. apply strict_eq_str_true, Hs.
  - destruct (strict_eq_str (BookingDetails.displayed_status w) (js "confirmed")
              && strict_eq_str (BookingDetails.displayed_paymentStatus w)
                   (js "pending"));
      simpl; intros H; repeat (destruct H as [H|H]; [discriminate H|]);
      destruct H.
Qed.

Lemma payment_button_rendered (w : World) (b : BookingDetails.Button) :
  b = BookingDetails.MarkPaidButton \/ b = BookingDetails.MarkFailedButton ->
  In b (BookingDetails.action_buttons w) ->
  BookingDetails.displayed_status w = JStr (js "confirmed")
  /\ BookingDetails.displayed_paymentStatus w = JStr (js "pending").
Proof.
  intros Hb. unfold BookingDetails.action_buttons.
  destruct (loading (booking w)); [intros []|].
  destruct (truthy (error (booking w))); [intros []|].
  destruct (negb (truthy (bookingDetails_ (booking w)))); [intros []|].
  destruct (strict_eq_str (BookingDetails.displayed_status w) (js "confirmed")
            && strict_eq_str (BookingDetails.displayed_paymentStatus w)
                 (js "pending")) eqn:Hs.
  - intros _. apply andb_prop in Hs as [H1 H2].
    split; apply strict_eq_str_true; assumption.
  - destruct (strict_eq_str (BookingDetails.displayed_status w)
                (js "pending_confirmation"));
      simpl; intros H; repeat (destruct H as [H|H]; [subst b|]);
      try destruct H; destruct Hb; discriminate.
Qed.

Lemma confirm_is_not_payment (uuid : jsstring) :
  ~ is_payment_update (confirm_call uuid).
Proof. intros [u [p H]]. discriminate H. Qed.

Lemma payment_is_not_confirm (uuid : jsstring) (p : PaymentUpdateRequest) :
  ~ is_confirm_request (payment_call uuid p).
Proof. intros [u H]. discriminate H. Qed.

(** [handleConfirmBooking] checks the status itself before it calls. *)
Lemma handleConfirmBooking_effect (props : BookingDetails.Props) (w : World) :
  exists w' new,
    BookingDetails.handleConfirmBooking props w = (w', Normal tt)
    /\ fetched w' = fetched w ++ new
    /\ (new = []
        \/ (BookingDetails.displayed_status w = JStr (js "pending_confirmation")
            /\ exists u, BookingDetails.uuid props = Some u /\ u <> []
                         /\ new = [confirm_call u])).
Proof.
  unfold BookingDetails.handleConfirmBooking. unfold_js.
  destruct (BookingDetails.uuid props) as [u|] eqn:Hu.
  - destruct (truthy (JStr u)) eqn:Ht; cbn [andb].
    + destruct (strict_eq_str
                  (get_prop_opt (bookingDetails_ (booking w)) (js "status"))
                  (js "pending_confirmation")) eqn:Hs.
      * destruct (confirmBooking_effect u w) as [w1 [Hrun [Hlog _]]].
        rewrite Hrun. eexists _, [confirm_call u].
        split; [reflexivity|]. split; [exact Hlog|]. right.
        split; [apply strict_eq_str_true, Hs|].
        exists u. repeat split. intros ->. discriminate Ht.
      * exists w, []. rewrite app_nil_r. auto.
    + exists w, []. rewrite app_nil_r. auto.
  - exists w, []. rewrite app_nil_r. auto.
Qed.

Lemma handlePaymentUpdate_effect (props : BookingDetails.Props)
    (r : BookingDetails.PaymentResult) (w : World) :
  exists w' new,
    BookingDetails.handlePaymentUpdate props r w = (w', Normal tt)
    /\ fetched w' = fetched w ++ new
    /\ (new = []
        \/ exists u p,
            new = [payment_call u p]
            /\ paymentStatus p = BookingDetails.as_update_status r).
Proof.
  unfold BookingDetails.handlePaymentUpdate.
  destruct (BookingDetails.uuid props) as [u|].
  - destruct (negb (truthy (JStr u))).
    + exists w, []. rewrite app_nil_r. auto.
    + unfold_js.
      match goal with
      | |- context [UseBooking.updatePayment ?u ?p ?w1] =>
          destruct (updatePayment_effect u p w1) as [w2 [Hrun [Hlog _]]];
          rewrite Hrun; cbn [fetched with_paymentLoading] in Hlog
      end.
      destruct (BookingDetails.onPaymentUpdate props); unfold_js;
        try match goal with
            | |- context [parent ?x ?c] => destruct (parent x c)
            end;
        (eexists _, [_]; split; [reflexivity|]);
        (split; [exact Hlog|]);
        right; eexists _, _; (split; [reflexivity|]); reflexivity.
  - exists w, []. rewrite app_nil_r. auto.
Qed.

(** The state machine of the back end moves a status along an edge of the
    graph, or not at all. *)
Lemma set_status_moves (now : N) (target : BookingStatus.t)
    (b b' : Backend.Booking) :
  Backend.set_status now target b = inr b' ->
  (Backend.status_edge (Backend.status b) target = true
   /\ Backend.status b' = target)
  \/ (b' = b /\ Backend.status b = BookingStatus.confirmed
      /\ target = BookingStatus.confirmed).
Proof.
  unfold Backend.set_status.
  destruct (Backend.status b) eqn:Hs, target; cbn; intros H;
    try discriminate H; injection H as <-; auto.
Qed.

Lemma set_status_refuses (now : N) (target : BookingStatus.t)
    (b : Backend.Booking) (e : Backend.Error) :
  Backend.set_status now target b = inl e ->
  e = Backend.InvalidStateTransition
  /\ Backend.status_edge (Backend.status b) target = false.
Proof.
  unfold Backend.set_status.
  destruct (Backend.status b), target; cbn; intros H;
    try discriminate H; injection H as <-; auto.
Qed.

Lemma set_status_terminal (now : N) (target : BookingStatus.t)
    (b : Backend.Booking) :
  Backend.status b = BookingStatus.completed
  \/ Backend.status b = BookingStatus.cancelled ->
  Backend.set_status now target b = inl Backend.InvalidStateTransition.
Proof.
  unfold Backend.set_status.
  intros [H|H]; rewrite H; destruct target; reflexivity.
Qed.

Lemma set_status_edge (now : N) (target : BookingStatus.t)
    (b : Backend.Booking) :
  Backend.status_edge (Backend.status b) target = true ->
  Backend.set_status now target b = inr (Backend.enter now target b).
Proof.
  unfold Backend.set_status.
  destruct (Backend.status b), target; cbn; intros H;
    try discriminate H; reflexivity.
Qed.

(** Off the graph the state machine refuses, except for the one no-op the
    specification sets apart: confirming a booking that is confirmed. *)
Lemma set_status_illegal (now : N) (target : BookingStatus.t)
    (b : Backend.Booking) :
  Backend.status_edge (Backend.status b) target = false ->
  ~ (Backend.status b = BookingStatus.confirmed
     /\ target = BookingStatus.confirmed) ->
  Backend.set_status now target b = inl Backend.InvalidStateTransition.
Proof.
  unfold Backend.set_status.
  destruct (Backend.status b), target; cbn; intros H Hnot;
    try discriminate H; try reflexivity.
  destruct Hnot. split; reflexivity.
Qed.

Lemma set_status_reconfirm (now : N) (b : Backend.Booking) :
  Backend.status b = BookingStatus.confirmed ->
  Backend.set_status now BookingStatus.confirmed b = inr b.
Proof. intros H. unfold Backend.set_status. rewrite H. reflexivity. Qed.

(** C1. The status of a booking moves only along pending_confirmation ->
    confirmed -> completed, with cancelled reachable from
    pending_confirmation or confirmed; nothing leaves completed or
    cancelled; an illegal transition (any move off the graph, the no-op of
    confirming a confirmed booking apart, which the specification makes a
    success that changes nothing) fails with InvalidStateTransition and
    leaves the store as it was.  In the client, a confirm request is made
    only when the displayed status is pending_confirmation, and a payment
    update only when the displayed status is confirmed and the displayed
    paymentStatus is pending. *)
Theorem status_moves_along_graph :
  (forall now id target s b,
      Backend.bookings s !! id = Some b ->
      match Backend.transition now id target s with
      | (s', inr b') =>
          Backend.bookings s' !! id = Some b'
          /\ Backend.links s' = Backend.links s
          /\ ((Backend.status_edge (Backend.status b) target = true
               /\ Backend.status b' = target)
              \/ (s' = s /\ b' = b
                  /\ Backend.status b = BookingStatus.confirmed
                  /\ target = BookingStatus.confirmed))
      | (s', inl e) =>
          e = Backend.InvalidStateTransition
          /\ s' = s
          /\ Backend.status_edge (Backend.status b) target = false
      end)
  /\ (forall now id target s b,
        Backend.bookings s !! id = Some b ->
        Backend.status_edge (Backend.status b) target = false ->
        ~ (Backend.status b = BookingStatus.confirmed
           /\ target = BookingStatus.confirmed) ->
        Backend.transition now id target s
        = (s, inl Backend.InvalidStateTransition))
  /\ (forall now id s b,
        Backend.bookings s !! id = Some b ->
        Backend.status b = BookingStatus.confirmed ->
        Backend.transition now id BookingStatus.confirmed s = (s, inr b))
  /\ (forall from to,
        Backend.status_edge from to = true <->
        (from = BookingStatus.pending_confirmation /\ to = BookingStatus.confirmed)
        \/ (from = BookingStatus.confirmed /\ to = BookingStatus.completed)
        \/ (from = BookingStatus.pending_confirmation /\ to = BookingStatus.cancelled)
        \/ (from = BookingStatus.confirmed /\ to = BookingStatus.cancelled))
  /\ (forall now id target s b,
        Backend.bookings s !! id = Some b ->
        Backend.status_edge (Backend.status b) target = true ->
        exists s' b',
          Backend.transition now id target s = (s', inr b')
          /\ Backend.status b' = target)
  /\ (forall now id target s b,
        Backend.bookings s !! id = Some b ->
        Backend.status b = BookingStatus.completed
        \/ Backend.status b = BookingStatus.cancelled ->
        Backend.transition now id target s
        = (s, inl Backend.InvalidStateTransition))
  /\ (forall props w, exists w' new,
        BookingDetails.handleConfirmBooking props w = (w', Normal tt)
        /\ fetched w' = fetched w ++ new
        /\ forall c, In c new ->
             c = confirm_call (default [] (BookingDetails.uuid props))
             /\ BookingDetails.displayed_status w
                = JStr (js "pending_confirmation"))
  /\ (forall props w b,
        In b (BookingDetails.action_buttons w) ->
        exists w' new,
          BookingDetails.onClick props b w = (w', Normal tt)
          /\ fetched w' = fetched w ++ new
          /\ (forall c, In c new -> is_confirm_request c ->
                BookingDetails.displayed_status w
                = JStr (js "pending_confirmation"))
          /\ (forall c, In c new -> is_payment_update c ->
                BookingDetails.displayed_status w = JStr (js "confirmed")
                /\ BookingDetails.displayed_paymentStatus w
                   = JStr (js "pending"))).
Proof.
  split; [|split; [|split; [|split; [|split; [|split; [|split]]]]]].
  - intros now id target s b Hb. unfold Backend.transition. rewrite Hb.
    destruct (Backend.set_status now target b) as [e|b'] eqn:Hset.
    + destruct (set_status_refuses _ _ _ _ Hset) as [He Hedge]. auto.
    + cbn [Backend.bookings Backend.links].
      split; [apply lookup_insert_eq|]. split; [reflexivity|].
      destruct (set_status_moves _ _ _ _ Hset) as [H|[-> [Hc Ht]]];
        [left; exact H|].
      right. split; [|auto].
      rewrite (insert_id _ _ _ Hb). destruct s; reflexivity.
  - intros now id target s b Hb Hedge Hnot. unfold Backend.transition.
    rewrite Hb, (set_status_illegal _ _ _ Hedge Hnot). reflexivity.
  - intros now id s b Hb Hc. unfold Backend.transition.
    rewrite Hb, (set_status_reconfirm _ _ Hc).
    rewrite (insert_id _ _ _ Hb). destruct s; reflexivity.
  - intros [] []; cbn; split; intros H; try discriminate H; try reflexivity;
      try tauto;
      repeat (destruct H as [H|H]; [destruct H; discriminate|]);
      destruct H; discriminate.
  - intros now id target s b Hb Hedge. unfold Backend.transition.
    rewrite Hb, (set_status_edge _ _ _ Hedge).
    eexists _, _. split; [reflexivity|]. reflexivity.
  - intros now id target s b Hb Hterm. unfold Backend.transition.
    rewrite Hb, (set_status_terminal _ _ _ Hterm). reflexivity.
  - intros props w.
    destruct (handleConfirmBooking_effect props w)
      as [w' [new [Hrun [Hlog Hnew]]]].
    exists w', new. split; [exact Hrun|]. split; [exact Hlog|].
    intros c Hc. destruct Hnew as [->|[Hs [u [Hu [_ ->]]]]]; [destruct Hc|].
    destruct Hc as [<-|[]]. rewrite Hu. split; [reflexivity | exact Hs].
  - intros props w b Hb. destruct b; cbn [BookingDetails.onClick].
    + destruct (handleConfirmBooking_effect props w)
        as [w' [new [Hrun [Hlog Hnew]]]].
      exists w', new. split; [exact Hrun|]. split; [exact Hlog|].
      pose proof (confirm_button_rendered w Hb) as Hs.
      split; [intros; exact Hs|].
      intros c Hc Hp.
      destruct Hnew as [->|[_ [u [_ [_ ->]]]]]; [destruct Hc|].
      destruct Hc as [<-|[]]. destruct (confirm_is_not_payment u Hp).
    + destruct (handlePaymentUpdate_effect props BookingDetails.completed w)
        as [w' [new [Hrun [Hlog Hnew]]]].
      exists w', new. split; [exact Hrun|]. split; [exact Hlog|].
      split.
      * intros c Hc Hq.
        destruct Hnew as [->|[u [p [-> _]]]]; [destruct Hc|].
        destruct Hc as [<-|[]]. destruct (payment_is_not_confirm u p Hq).
      * intros c _ _. apply (payment_button_rendered w _ (or_introl eq_refl) Hb).
    + destruct (handlePaymentUpdate_effect props BookingDetails.failed w)
        as [w' [new [Hrun [Hlog Hnew]]]].
      exists w', new. split; [exact Hrun|]. split; [exact Hlog|].
      split.
      * intros c Hc Hq.
        destruct Hnew as [->|[u [p [-> _]]]]; [destruct Hc|].
        destruct Hc as [<-|[]]. destruct (payment_is_not_confirm u p Hq).
      * intros c _ _. apply (payment_button_rendered w _ (or_intror eq_refl) Hb).
Qed.

(** * Further properties of the code *)

(** ** The inputs of the payment form *)

Lemma filter_digits_idem (s : jsstring) :
  List.filter is_digit (List.filter is_digit s) = List.filter is_digit s.
Proof. apply filter_digits_all, forallb_filter_digits. Qed.

Lemma join_space_length (blocks : list jsstring) :
  blocks <> [] ->
  (length (join [space] blocks) + 1
   = length (concat blocks) + length blocks)%nat.
Proof.
  induction blocks as [|b rest IH]; [contradiction|]. intros _.
  destruct rest as [|b' rest].
  - simpl. rewrite app_nil_r. lia.
  - change (join [space] (b :: b' :: rest))
      with (b ++ [space] ++ join [space] (b' :: rest)).
    change (concat (b :: b' :: rest)) with (b ++ concat (b' :: rest)).
    rewrite !length_app. cbn [length] in *.
    specialize (IH ltac:(discriminate)). lia.
Qed.

(** The loop makes no more blocks than quarters of what is left, rounded
    up. *)
Lemma chunk_loop_count (m : jsstring) (fuel i : nat) (parts : list jsstring) :
  (length m - i <= fuel)%nat ->
  exists blocks,
    PaymentInterface.chunk_loop fuel i m parts = parts ++ blocks
    /\ (4 * length blocks <= length m - i + 3)%nat.
Proof.
  revert i parts. induction fuel as [|fuel IH]; intros i parts Hfuel.
  - exists []. rewrite app_nil_r. split; [reflexivity | simpl; lia].
  - cbn [PaymentInterface.chunk_loop].
    destruct (i <? length m)%nat eqn:Hi.
    + apply Nat.ltb_lt in Hi.
      destruct (IH (i + 4)%nat (parts ++ [substring i (i + 4) m]))
        as [blocks [Hrun Hcount]]; [lia|].
      exists (substring i (i + 4) m :: blocks).
      rewrite Hrun, <- app_assoc. split; [reflexivity|].
      cbn [length]. lia.
    + exists []. rewrite app_nil_r. split; [reflexivity | simpl; lia].
Qed.

(** [formatCardNumber] in terms of the digits of its argument. *)
Lemma formatCardNumber_of_digits (s : jsstring) :
  let d := List.filter is_digit s in
  let m := firstn 16 d in
  PaymentInterface.formatCardNumber s
  = if (4 <=? length d)%nat
    then join [space] (PaymentInterface.chunk_loop (length m) 0 m [])
    else d.
Proof.
  intros d m. unfold PaymentInterface.formatCardNumber.
  rewrite digits_after_cleaning. fold d.
  assert (Hd : forallb is_digit d = true) by apply forallb_filter_digits.
  destruct (4 <=? length d)%nat eqn:Hn.
  - apply Nat.leb_le in Hn.
    rewrite (first_match_digits d Hd Hn).
    change (default [] (Some (firstn 16 d))) with m.
    assert (Hm : forallb is_digit m = true) by (apply forallb_firstn, Hd).
    destruct (chunk_loop_spec m Hm (length m) 0 [])
      as [blocks [Hrun [_ [_ Hne]]]]; [lia|].
    rewrite Hrun. cbn [app].
    destruct blocks as [|b blocks]; [|reflexivity].
    exfalso. apply Hne; [|reflexivity].
    subst m. rewrite length_firstn. lia.
  - apply Nat.leb_gt in Hn. rewrite (first_match_short d Hn). reflexivity.
Qed.

(** The digits of a formatted card number. *)
Lemma formatCardNumber_digits (s : jsstring) :
  let d := List.filter is_digit s in
  List.filter is_digit (PaymentInterface.formatCardNumber s)
  = if (4 <=? length d)%nat then firstn 16 d else d.
Proof.
  intros d. rewrite formatCardNumber_of_digits. fold d.
  assert (Hd : forallb is_digit d = true) by apply forallb_filter_digits.
  destruct (4 <=? length d)%nat; [|apply filter_digits_all, Hd].
  set (m := firstn 16 d).
  assert (Hm : forallb is_digit m = true) by (apply forallb_firstn, Hd).
  destruct (chunk_loop_spec m Hm (length m) 0 [])
    as [blocks [Hrun [Hcat [Hall _]]]]; [lia|].
  rewrite Hrun. cbn [app]. rewrite digits_of_join; [exact Hcat|].
  eapply List.Forall_impl; [|exact Hall]. intros b [_ Hb]. exact Hb.
Qed.

(** X1. Formatting a card number that is already formatted changes nothing,
    so the input may reformat its own value on every keystroke. *)
Theorem formatCardNumber_idempotent (s : jsstring) :
  PaymentInterface.formatCardNumber (PaymentInterface.formatCardNumber s)
  = PaymentInterface.formatCardNumber s.
Proof.
  rewrite (formatCardNumber_of_digits (PaymentInterface.formatCardNumber s)).
  cbv zeta. rewrite formatCardNumber_digits. cbv zeta.
  rewrite (formatCardNumber_of_digits s). cbv zeta.
  set (d := List.filter is_digit s).
  destruct (4 <=? length d)%nat eqn:Hn.
  - apply Nat.leb_le in Hn.
    assert (Hlen : (4 <=? length (firstn 16 d))%nat = true).
    { apply Nat.leb_le. rewrite length_firstn. lia. }
    rewrite Hlen.
    assert (Hfix : firstn 16 (firstn 16 d) = firstn 16 d).
    { apply firstn_all2. rewrite length_firstn. lia. }
    rewrite Hfix. reflexivity.
  - rewrite Hn. reflexivity.
Qed.

(** X2. A formatted card number has at most 19 code units, the [maxLength]
    of the input: at most sixteen digits and three spaces. *)
Theorem formatCardNumber_length (s : jsstring) :
  (length (PaymentInterface.formatCardNumber s) <= 19)%nat
  /\ (length (List.filter is_digit (PaymentInterface.formatCardNumber s)) <= 16)%nat.
Proof.
  split.
  - rewrite formatCardNumber_of_digits. cbv zeta.
    set (d := List.filter is_digit s).
    destruct (4 <=? length d)%nat eqn:Hn; [|apply Nat.leb_gt in Hn; lia].
    apply Nat.leb_le in Hn. set (m := firstn 16 d).
    assert (Hm : forallb is_digit m = true)
      by (apply forallb_firstn, forallb_filter_digits).
    assert (Hlen : (4 <= length m <= 16)%nat)
      by (subst m; rewrite length_firstn; lia).
    clearbody m.
    destruct (chunk_loop_spec m Hm (length m) 0 [])
      as [blocks [Hrun [Hcat [_ Hne]]]]; [lia|].
    destruct (chunk_loop_count m (length m) 0 []) as [blocks' [Hrun' Hcount]];
      [lia|].
    rewrite Hrun in Hrun'. cbn [app] in Hrun'. subst blocks'.
    rewrite Hrun. cbn [app].
    pose proof (join_space_length blocks (Hne ltac:(lia))) as Hjoin.
    rewrite Hcat in Hjoin. change (skipn 0 m) with m in Hjoin. lia.
  - rewrite formatCardNumber_digits. cbv zeta.
    destruct (4 <=? length (List.filter is_digit s))%nat eqn:Hn.
    + rewrite length_firstn. lia.
    + apply Nat.leb_gt in Hn. lia.
Qed.

(** [formatExpiry] in terms of the digits of its argument. *)
Lemma formatExpiry_of_digits (s : jsstring) :
  let d := List.filter is_digit s in
  PaymentInterface.formatExpiry s
  = if (2 <=? length d)%nat
    then firstn 2 d ++ js "/" ++ firstn 2 (skipn 2 d)
    else d.
Proof.
  intros d. unfold PaymentInterface.formatExpiry.
  rewrite digits_after_cleaning. fold d. reflexivity.
Qed.

Lemma formatExpiry_digits (s : jsstring) :
  List.filter is_digit (PaymentInterface.formatExpiry s)
  = firstn 4 (List.filter is_digit s).
Proof.
  rewrite formatExpiry_of_digits. cbv zeta.
  set (d := List.filter is_digit s).
  assert (Hd : forallb is_digit d = true) by apply forallb_filter_digits.
  destruct (2 <=? length d)%nat eqn:Hn.
  - rewrite !List.filter_app.
    rewrite (filter_digits_all (firstn 2 d)) by (apply forallb_firstn, Hd).
    rewrite (filter_digits_all (firstn 2 (skipn 2 d)))
      by (apply forallb_firstn, forallb_skipn, Hd).
    change (List.filter is_digit (js "/")) with (@nil N). cbn [app].
    apply (take_take_drop d 2 2).
  - apply Nat.leb_gt in Hn. rewrite filter_digits_all by exact Hd.
    symmetry. apply firstn_all2. lia.
Qed.

Lemma digits_have_no_slash (l : jsstring) :
  forallb is_digit l = true ->
  Forall (fun c => is_digit c = true \/ c = 47) l
  /\ List.filter (fun c => c =? 47) l = [].
Proof.
  induction l as [|c l IH]; cbn [forallb List.filter].
  - intros _. split; [constructor | reflexivity].
  - intros H. apply andb_prop in H as [Hc Hl].
    destruct (IH Hl) as [IH1 IH2].
    split; [constructor; [left; exact Hc | exact IH1]|].
    destruct (c =? 47) eqn:E; [|exact IH2].
    apply N.eqb_eq in E. subst c. discriminate Hc.
Qed.

(** X3. The expiry field holds at most five code units, the [maxLength] of
    the input; they are digits and at most one slash, and the digits are
    the first four digits typed. *)
Theorem formatExpiry_shape (s : jsstring) :
  let r := PaymentInterface.formatExpiry s in
  (length r <= 5)%nat
  /\ List.filter is_digit r = firstn 4 (List.filter is_digit s)
  /\ Forall (fun c => is_digit c = true \/ c = 47) r
  /\ (length (List.filter (fun c => (c =? 47)%N) r) <= 1)%nat.
Proof.
  intros r. split; [|split; [apply formatExpiry_digits|]];
    subst r; rewrite formatExpiry_of_digits; cbv zeta;
    set (d := List.filter is_digit s);
    assert (Hd : forallb is_digit d = true) by apply forallb_filter_digits;
    clearbody d.
  - destruct (2 <=? length d)%nat eqn:Hn.
    + rewrite !length_app, !length_firstn.
      change (length (js "/")) with 1%nat. lia.
    + apply Nat.leb_gt in Hn. lia.
  - destruct (2 <=? length d)%nat eqn:Hn.
    + destruct (digits_have_no_slash (firstn 2 d)) as [A1 A2];
        [apply forallb_firstn, Hd|].
      destruct (digits_have_no_slash (firstn 2 (skipn 2 d))) as [B1 B2];
        [apply forallb_firstn, forallb_skipn, Hd|].
      split.
      * apply Forall_app. split; [exact A1|].
        apply Forall_app. split; [|exact B1].
        constructor; [right; reflexivity | constructor].
      * rewrite !List.filter_app, !length_app, A2, B2.
        change (List.filter (fun c => c =? 47) (js "/")) with [47].
        cbn [length]. lia.
    + destruct (digits_have_no_slash d Hd) as [H1 H2]. split; [exact H1|].
      rewrite H2. cbn [length]. lia.
Qed.

(** X4. Formatting an expiry that is already formatted changes nothing. *)
Theorem formatExpiry_idempotent (s : jsstring) :
  PaymentInterface.formatExpiry (PaymentInterface.formatExpiry s)
  = PaymentInterface.formatExpiry s.
Proof.
  rewrite (formatExpiry_of_digits (PaymentInterface.formatExpiry s)).
  cbv zeta. rewrite formatExpiry_digits.
  rewrite (formatExpiry_of_digits s). cbv zeta.
  set (d := List.filter is_digit s). clearbody d.
  rewrite length_firstn.
  destruct (2 <=? length d)%nat eqn:Hn.
  - apply Nat.leb_le in Hn.
    assert (H2 : (2 <=? Nat.min 4 (length d))%nat = true)
      by (apply Nat.leb_le; lia).
    rewrite H2, firstn_firstn. cbn [Nat.min].
    rewrite skipn_firstn_comm. cbn [Nat.sub]. rewrite firstn_firstn.
    reflexivity.
  - assert (H2 : (2 <=? Nat.min 4 (length d))%nat = false).
    { apply Nat.leb_gt in Hn. apply Nat.leb_gt. lia. }
    rewrite H2. apply firstn_all2. apply Nat.leb_gt in Hn. lia.
Qed.

(** X5. Only the digits of what is typed or pasted matter to the three
    inputs of the card: spaces, dashes and letters are ignored wherever
    they are. *)
Theorem formatters_read_digits_only (s t : jsstring) :
  List.filter is_digit s = List.filter is_digit t ->
  PaymentInterface.formatCardNumber s = PaymentInterface.formatCardNumber t
  /\ PaymentInterface.formatExpiry s = PaymentInterface.formatExpiry t
  /\ PaymentInterface.cvv_onChange s = PaymentInterface.cvv_onChange t.
Proof.
  intros H. rewrite !formatCardNumber_of_digits, !formatExpiry_of_digits.
  unfold PaymentInterface.cvv_onChange. cbv zeta. rewrite H. auto.
Qed.

Lemma formatters_read_digits_only_witness :
  List.filter is_digit (js "4242-4242 4242x4242")
  = List.filter is_digit (js "4242424242424242")
  /\ PaymentInterface.formatCardNumber (js "4242-4242 4242x4242")
     = PaymentInterface.formatCardNumber (js "4242424242424242")
  /\ PaymentInterface.formatExpiry (js "4242-4242 4242x4242")
     = PaymentInterface.formatExpiry (js "4242424242424242")
  /\ PaymentInterface.cvv_onChange (js "4242-4242 4242x4242")
     = PaymentInterface.cvv_onChange (js "4242424242424242").
Proof.
  split; [reflexivity|].
  apply (formatters_read_digits_only
           (js "4242-4242 4242x4242") (js "4242424242424242")).
  reflexivity.
Defined.

(** X6. The CVV field holds at most four code units, all digits, and
    filtering its own value again changes nothing. *)
Theorem cvv_onChange_shape (s : jsstring) :
  let r := PaymentInterface.cvv_onChange s in
  (length r <= 4)%nat
  /\ forallb is_digit r = true
  /\ PaymentInterface.cvv_onChange r = r.
Proof.
  intros r. subst r. unfold PaymentInterface.cvv_onChange.
  assert (Hd : forallb is_digit (firstn 4 (List.filter is_digit s)) = true)
    by apply forallb_firstn, forallb_filter_digits.
  split; [rewrite length_firstn; lia|]. split; [exact Hd|].
  rewrite (filter_digits_all _ Hd), firstn_firstn. reflexivity.
Qed.

(** ** One request, one call *)

(** X7. Whatever the network does, [request] makes exactly one call of
    [fetch] (no retry), to the API base URL followed by the endpoint, and
    leaves the React state, the timers and the callbacks alone.  For a
    response that is ok and whose body parses, it writes nothing to the
    console and returns the parsed body as it came.  In every other case
    (the call rejected, the body did not parse, the status is not ok) it
    writes one line to the console, with the value it caught, and returns
    the failure value made from it. *)
Theorem request_effects (endpoint : jsstring) (options : RequestInit)
    (w : World) :
  let c := ApiService.fetch_init (apiBaseUrl ++ endpoint) options in
  exists w' v,
    ApiService.request endpoint options w = (w', Normal v)
    /\ fetched w' = fetched w ++ [c]
    /\ url c = apiBaseUrl ++ endpoint
    /\ booking w' = booking w
    /\ magicLink w' = magicLink w
    /\ timers w' = timers w
    /\ called w' = called w
    /\ (forall r data,
          respond w (fetched w) c = Resolves r ->
          ok r = true -> json r = inr data ->
          v = data /\ console w' = console w)
    /\ (forall e,
          respond w (fetched w) c = Rejects e
          \/ (exists r, respond w (fetched w) c = Resolves r /\ json r = inl e)
          \/ (exists r data,
                respond w (fetched w) c = Resolves r /\ json r = inr data
                /\ ok r = false /\ e = http_error r data) ->
          v = ApiService.failure e
          /\ console w'
             = console w ++ [[Text (js "API request failed:"); Caught e]])
    /\ ((exists r data,
           respond w (fetched w) c = Resolves r
           /\ ok r = true /\ json r = inr data)
        \/ (exists e,
              respond w (fetched w) c = Rejects e
              \/ (exists r, respond w (fetched w) c = Resolves r
                            /\ json r = inl e)
              \/ (exists r data,
                    respond w (fetched w) c = Resolves r /\ json r = inr data
                    /\ ok r = false /\ e = http_error r data))).
Proof.
  intros c. rewrite request_run. fold c.
  destruct (respond w (fetched w) c) as [e|r] eqn:Hnet;
    [| destruct (json r) as [e|data] eqn:Hjson;
       [| destruct (ok r) eqn:Hok ] ];
    eexists _, _; (split; [reflexivity|]);
    do 6 (split; [reflexivity|]);
    (split; [|split]).
  all: try (intros r0 data0 H1 H2 H3;
            repeat (progress (same_lhs; simplify_eq)); split; reflexivity).
  all: try (intros e0 [H|[[r0 [H1 H2]]|[r0 [data0 [H1 [H2 [H3 H4]]]]]]];
            repeat (progress (same_lhs; simplify_eq)); split; reflexivity).
  - right. exists e. left. reflexivity.
  - right. exists e. right. left. exists r. auto.
  - left. exists r, data. auto.
  - right. exists (http_error r data). right. right. exists r, data. auto.
Qed.

(** ** What the hooks show *)

Lemma get_prop_throws (v : JsValue) (k : jsstring) (e : Thrown) :
  get_prop v k = inl e -> exists m, e = new_TypeError m /\ m <> [].
Proof.
  destruct v; cbn [get_prop]; intros H; try discriminate H;
    injection H as <-; eexists; (split; [reflexivity|]); discriminate.
Qed.

Lemma truthy_caught (v : JsValue) (k : jsstring) (e : Thrown)
    (fallback : jsstring) :
  get_prop v k = inl e -> truthy (JStr (message_or e fallback)) = true.
Proof.
  intros H. destruct (get_prop_throws v k e H) as [m [-> Hm]].
  cbn. destruct m; [contradiction | reflexivity].
Qed.

Lemma truthy_js_or_r (a b : JsValue) :
  truthy b = true -> truthy (js_or a b) = true.
Proof. intros H. unfold js_or. destruct (truthy a) eqn:E; assumption. Qed.

Lemma shown_created (d : JsValue) (s : UseBookingState) :
  shown (UseBooking.created d s).
Proof. split; [reflexivity|]. left. split; reflexivity. Qed.

Lemma shown_succeeded (s : UseBookingState) : shown (UseBooking.succeeded s).
Proof. split; [reflexivity|]. left. split; reflexivity. Qed.

Lemma shown_fetched_details (d : JsValue) (s : UseBookingState) :
  shown (UseBooking.fetched_details d s).
Proof. split; [reflexivity|]. left. split; reflexivity. Qed.

Lemma shown_failed (e : JsValue) (s : UseBookingState) :
  truthy e = true -> shown (UseBooking.failed e s).
Proof. intros H. split; [reflexivity|]. right. split; [reflexivity | exact H]. Qed.

(** Closing the goals a run of a hook leaves. *)
Ltac show_error :=
  first [ apply truthy_js_or_r; reflexivity
        | eapply truthy_caught; eassumption ].

Ltac close_hook :=
  cbn [booking with_booking with_console with_fetched
       success error loading bookingResponse bookingDetails_
       UseBooking.created UseBooking.succeeded UseBooking.fetched_details
       UseBooking.failed UseBooking.starting UseBooking.starting_create];
  first [ reflexivity
        | apply shown_created | apply shown_succeeded
        | apply shown_fetched_details
        | apply shown_failed; show_error
        | intros; discriminate
        | intros; assumption
        | idtac ].

Ltac run_hook_outcome :=
  unfold_js; run_request; repeat case_js; unfold_js;
  (eexists; split; [reflexivity|]);
  repeat match goal with |- _ /\ _ => split end; close_hook.

Lemma createBooking_outcome (data : BookingFormData) (w : World) :
  exists w',
    UseBooking.createBooking data w = (w', Normal tt)
    /\ shown (booking w')
    /\ bookingDetails_ (booking w') = bookingDetails_ (booking w)
    /\ (success (booking w') = true ->
        truthy (bookingResponse (booking w')) = true)
    /\ (success (booking w') = false ->
        bookingResponse (booking w') = bookingResponse (booking w)).
Proof.
  unfold UseBooking.createBooking, UseBooking.caught, UseBooking.setState,
    ApiService.createBooking.
  run_hook_outcome.
Qed.

Lemma confirmBooking_outcome (uuid : jsstring) (w : World) :
  exists w',
    UseBooking.confirmBooking uuid w = (w', Normal tt)
    /\ shown (booking w')
    /\ bookingDetails_ (booking w') = bookingDetails_ (booking w)
    /\ bookingResponse (booking w') = bookingResponse (booking w).
Proof.
  unfold UseBooking.confirmBooking, UseBooking.caught, UseBooking.setState,
    ApiService.confirmBooking.
  run_hook_outcome.
Qed.

Lemma updatePayment_outcome (uuid : jsstring) (p : PaymentUpdateRequest)
    (w : World) :
  exists w',
    UseBooking.updatePayment uuid p w = (w', Normal tt)
    /\ shown (booking w')
    /\ bookingDetails_ (booking w') = bookingDetails_ (booking w)
    /\ bookingResponse (booking w') = bookingResponse (booking w).
Proof.
  unfold UseBooking.updatePayment, UseBooking.caught, UseBooking.setState,
    ApiService.updatePaymentStatus.
  run_hook_outcome.
Qed.

Lemma getBookingDetails_outcome (uuid : jsstring) (w : World) :
  exists w',
    UseBooking.getBookingDetails uuid w = (w', Normal tt)
    /\ shown (booking w')
    /\ bookingResponse (booking w') = bookingResponse (booking w)
    /\ (success (booking w') = true ->
        truthy (bookingDetails_ (booking w')) = true)
    /\ (success (booking w') = false ->
        bookingDetails_ (booking w') = bookingDetails_ (booking w)).
Proof.
  unfold UseBooking.getBookingDetails, UseBooking.caught, UseBooking.setState,
    ApiService.getBookingDetails.
  run_hook_outcome.
Qed.

Lemma get_prop_defined (v : JsValue) (k : jsstring) (x : JsValue) :
  get_prop v k = inr x -> forall k', get_prop v k' = inr (get_prop_opt v k').
Proof.
  intros H k'. unfold get_prop_opt.
  destruct v; cbn [get_prop] in *; try discriminate H; reflexivity.
Qed.

(** Running a hook on the value the service returned. *)
Ltac run_answer :=
  unfold_js;
  match goal with
  | |- context [ApiService.request ?e ?o ?w1] =>
      let v := fresh "v" in
      let cs := fresh "cs" in
      let Hrun := fresh "Hrun" in
      let Hs := fresh "Hs" in
      destruct (request_returns e o w1) as [v [cs Hrun]];
      eexists _, v; (split; [exact Hrun|]); rewrite Hrun; clear Hrun;
      unfold reads_answer; unfold_js;
      destruct (get_prop v (js "success")) as [?|?s] eqn:Hs;
      [ | rewrite ?(get_prop_defined v _ _ Hs (js "data")),
                  ?(get_prop_defined v _ _ Hs (js "error"));
          unfold_js;
          let Ht := fresh "Ht" in
          let Hd := fresh "Hd" in
          destruct (truthy s) eqn:Ht;
          destruct (truthy (get_prop_opt v (js "data"))) eqn:Hd;
          cbn [andb];
          repeat (progress (unfold_js; rewrite ?Ht, ?Hd)) ]
  end;
  cbn [fst]; (split; [close_hook | split; reflexivity]).

(** X8. Each operation of [useBooking] ends as the value the service
    returned for its call says.  When [success] of that value is truthy
    (and, for [createBooking] and [getBookingDetails], [data] is truthy
    too) the hook shows the success with no error.  Otherwise it shows a
    failure with the [error] of the value, and with the operation's own
    message ("Failed to create booking", "Failed to confirm booking",
    "Failed to update payment", "Failed to fetch booking details") when
    that [error] is empty, missing or otherwise falsy.  When the value
    cannot be read, as for a body that is [null], it shows the message of
    the [TypeError].  In each case [loading] is false and a failure comes
    with an error that is truthy. *)
Theorem useBooking_shows_outcome (w : World) :
  (forall data, exists w1 v,
      ApiService.createBooking data
        (with_booking (UseBooking.starting_create (booking w)) w)
      = (w1, Normal v)
      /\ let st := booking (fst (UseBooking.createBooking data w)) in
         shown st /\ reads_answer (js "Failed to create booking") true v st)
  /\ (forall uuid, exists w1 v,
      ApiService.confirmBooking uuid
        (with_booking (UseBooking.starting (booking w)) w)
      = (w1, Normal v)
      /\ let st := booking (fst (UseBooking.confirmBooking uuid w)) in
         shown st /\ reads_answer (js "Failed to confirm booking") false v st)
  /\ (forall uuid p, exists w1 v,
      ApiService.updatePaymentStatus uuid p
        (with_booking (UseBooking.starting (booking w)) w)
      = (w1, Normal v)
      /\ let st := booking (fst (UseBooking.updatePayment uuid p w)) in
         shown st /\ reads_answer (js "Failed to update payment") false v st)
  /\ (forall uuid, exists w1 v,
      ApiService.getBookingDetails uuid
        (with_booking (UseBooking.starting (booking w)) w)
      = (w1, Normal v)
      /\ let st := booking (fst (UseBooking.getBookingDetails uuid w)) in
         shown st
         /\ reads_answer (js "Failed to fetch booking details") true v st)
  /\ (forall fallback needs_data v st,
        reads_answer fallback needs_data v st ->
        (v = JNull ->
         success st = false
         /\ error st
            = JStr (js "Cannot read properties of null (reading 'success')"))
        /\ (forall fields,
              v = JObj fields ->
              truthy (lookup_field (js "success") fields) = false ->
              truthy (lookup_field (js "error") fields) = false ->
              success st = false /\ error st = JStr fallback)
        /\ (forall fields,
              v = JObj fields ->
              truthy (lookup_field (js "success") fields) = false ->
              truthy (lookup_field (js "error") fields) = true ->
              success st = false
              /\ error st = lookup_field (js "error") fields)).
Proof.
  repeat match goal with |- _ /\ _ => split end.
  - intros data.
    unfold UseBooking.createBooking, UseBooking.caught, UseBooking.setState,
      ApiService.createBooking.
    run_answer.
  - intros uuid.
    unfold UseBooking.confirmBooking, UseBooking.caught, UseBooking.setState,
      ApiService.confirmBooking.
    run_answer.
  - intros uuid p.
    unfold UseBooking.updatePayment, UseBooking.caught, UseBooking.setState,
      ApiService.updatePaymentStatus.
    run_answer.
  - intros uuid.
    unfold UseBooking.getBookingDetails, UseBooking.caught, UseBooking.setState,
      ApiService.getBookingDetails.
    run_answer.
  - intros fallback needs_data v st H. unfold reads_answer in H.
    repeat match goal with |- _ /\ _ => split end.
    + intros ->. exact H.
    + intros fields -> Hs He. cbn [get_prop get_prop_opt] in H.
      rewrite Hs in H. cbn [andb] in H. destruct H as [H1 H2].
      split; [exact H1|]. rewrite H2. unfold js_or. rewrite He. reflexivity.
    + intros fields -> Hs He. cbn [get_prop get_prop_opt] in H.
      rewrite Hs in H. cbn [andb] in H. destruct H as [H1 H2].
      split; [exact H1|]. rewrite H2. unfold js_or. rewrite He. reflexivity.
Qed.

(** X9. The operations of [useBooking] keep each other's results.  Only a
    successful [createBooking] replaces [bookingResponse], and then by a
    truthy value; only a successful [getBookingDetails] replaces
    [bookingDetails], likewise; [confirmBooking] and [updatePayment] change
    neither, so a view keeps the booking it shows until it is fetched
    again. *)
Theorem useBooking_keeps_results (w : World) :
  (forall data,
      let s := booking (fst (UseBooking.createBooking data w)) in
      bookingDetails_ s = bookingDetails_ (booking w)
      /\ (success s = true -> truthy (bookingResponse s) = true)
      /\ (success s = false -> bookingResponse s = bookingResponse (booking w)))
  /\ (forall uuid,
      let s := booking (fst (UseBooking.confirmBooking uuid w)) in
      bookingDetails_ s = bookingDetails_ (booking w)
      /\ bookingResponse s = bookingResponse (booking w))
  /\ (forall uuid p,
      let s := booking (fst (UseBooking.updatePayment uuid p w)) in
      bookingDetails_ s = bookingDetails_ (booking w)
      /\ bookingResponse s = bookingResponse (booking w))
  /\ (forall uuid,
      let s := booking (fst (UseBooking.getBookingDetails uuid w)) in
      bookingResponse s = bookingResponse (booking w)
      /\ (success s = true -> truthy (bookingDetails_ s) = true)
      /\ (success s = false -> bookingDetails_ s = bookingDetails_ (booking w))).
Proof.
  repeat match goal with |- _ /\ _ => split end.
  - intros data s. subst s.
    destruct (createBooking_outcome data w) as [w' [-> [_ H]]]. exact H.
  - intros uuid s. subst s.
    destruct (confirmBooking_outcome uuid w) as [w' [-> [_ H]]]. exact H.
  - intros uuid p s. subst s.
    destruct (updatePayment_outcome uuid p w) as [w' [-> [_ H]]]. exact H.
  - intros uuid s. subst s.
    destruct (getBookingDetails_outcome uuid w) as [w' [-> [_ H]]]. exact H.
Qed.

(** ** From the server's answer to the state of the hook *)

(** [request] when the server refuses with an error string. *)
Lemma request_refused (endpoint : jsstring) (options : RequestInit) (w : World)
    (r : Response) (fields : list (jsstring * JsValue)) (s : jsstring) :
  respond w (fetched w) (ApiService.fetch_init (apiBaseUrl ++ endpoint) options)
  = Resolves r ->
  ok r = false -> json r = inr (JObj fields) ->
  lookup_field (js "error") fields = JStr s -> s <> [] ->
  exists w',
    ApiService.request endpoint options w
    = (w', Normal (JObj [ (js "success", JBool false); (js "error", JStr s) ]))
    /\ booking w' = booking w.
Proof.
  intros Hnet Hok Hjson Herr Hs. rewrite request_run, Hnet, Hjson, Hok.
  unfold ApiService.failure, http_error. cbn [get_prop]. rewrite Herr.
  unfold js_or, new_Error. destruct s as [|a s]; [contradiction|].
  eexists. split; [reflexivity|]. reflexivity.
Qed.

(** [request] when the server answers ok. *)
Lemma request_answered (endpoint : jsstring) (options : RequestInit) (w : World)
    (r : Response) (v : JsValue) :
  respond w (fetched w) (ApiService.fetch_init (apiBaseUrl ++ endpoint) options)
  = Resolves r ->
  ok r = true -> json r = inr v ->
  exists w',
    ApiService.request endpoint options w = (w', Normal v)
    /\ booking w' = booking w.
Proof.
  intros Hnet Hok Hjson. rewrite request_run, Hnet, Hjson, Hok.
  eexists. split; reflexivity.
Qed.

Lemma refusal_success (s : jsstring) :
  get_prop (JObj [ (js "success", JBool false); (js "error", JStr s) ])
    (js "success") = inr (JBool false).
Proof. reflexivity. Qed.

Lemma refusal_data (s : jsstring) :
  get_prop (JObj [ (js "success", JBool false); (js "error", JStr s) ])
    (js "data") = inr JUndefined.
Proof. reflexivity. Qed.

Lemma refusal_error (s : jsstring) :
  get_prop (JObj [ (js "success", JBool false); (js "error", JStr s) ])
    (js "error") = inr (JStr s).
Proof. reflexivity. Qed.

(** Running a hook against a server that refuses. *)
Ltac run_refused Hnet Hok Hjson Herr Hs :=
  unfold_js;
  match goal with
  | |- context [ApiService.request ?e ?o ?w1] =>
      let Hrun := fresh "Hrun" in
      let Hb := fresh "Hb" in
      destruct (request_refused e o w1 _ _ _ (Hnet _) Hok Hjson Herr Hs)
        as [? [Hrun Hb]];
      rewrite Hrun; clear Hrun
  end;
  unfold_js;
  rewrite ?refusal_success, ?refusal_data, ?refusal_error;
  unfold_js; cbn [truthy]; unfold_js;
  rewrite ?refusal_success, ?refusal_data, ?refusal_error; unfold_js.

(** X10. An error string sent by the server with a status that is not ok is
    what the hook shows: it reaches [error] of [useBooking] unchanged, with
    [success] false, for each of the four operations. *)
Theorem server_error_is_shown (w : World) (r : Response)
    (fields : list (jsstring * JsValue)) (s : jsstring) :
  (forall c, respond w (fetched w) c = Resolves r) ->
  ok r = false ->
  json r = inr (JObj fields) ->
  lookup_field (js "error") fields = JStr s ->
  s <> [] ->
  (forall data,
      let st := booking (fst (UseBooking.createBooking data w)) in
      error st = JStr s /\ success st = false /\ loading st = false)
  /\ (forall uuid,
      let st := booking (fst (UseBooking.confirmBooking uuid w)) in
      error st = JStr s /\ success st = false /\ loading st = false)
  /\ (forall uuid p,
      let st := booking (fst (UseBooking.updatePayment uuid p w)) in
      error st = JStr s /\ success st = false /\ loading st = false)
  /\ (forall uuid,
      let st := booking (fst (UseBooking.getBookingDetails uuid w)) in
      error st = JStr s /\ success st = false /\ loading st = false).
Proof.
  intros Hnet Hok Hjson Herr Hs.
  assert (Hor : forall fb, js_or (JStr s) (JStr fb) = JStr s).
  { intros fb. unfold js_or. destruct s; [contradiction | reflexivity]. }
  repeat match goal with |- _ /\ _ => split end; intros; subst st.
  - unfold UseBooking.createBooking, UseBooking.caught, UseBooking.setState,
      ApiService.createBooking.
    run_refused Hnet Hok Hjson Herr Hs.
    cbn [fst booking with_booking error success loading UseBooking.failed].
    rewrite Hor. auto.
  - unfold UseBooking.confirmBooking, UseBooking.caught, UseBooking.setState,
      ApiService.confirmBooking.
    run_refused Hnet Hok Hjson Herr Hs.
    cbn [fst booking with_booking error success loading UseBooking.failed].
    rewrite Hor. auto.
  - unfold UseBooking.updatePayment, UseBooking.caught, UseBooking.setState,
      ApiService.updatePaymentStatus.
    run_refused Hnet Hok Hjson Herr Hs.
    cbn [fst booking with_booking error success loading UseBooking.failed].
    rewrite Hor. auto.
  - unfold UseBooking.getBookingDetails, UseBooking.caught, UseBooking.setState,
      ApiService.getBookingDetails.
    run_refused Hnet Hok Hjson Herr Hs.
    cbn [fst booking with_booking error success loading UseBooking.failed].
    rewrite Hor. auto.
Qed.

Lemma server_error_is_shown_witness :
  let body := JObj [ (js "success", JBool false);
                     (js "error", JStr (js "Booking not found")) ] in
  let w := fresh_world (answering 404 body) (fun _ => None) 0 in
  let st := booking (fst (UseBooking.getBookingDetails (js "u1") w)) in
  error st = JStr (js "Booking not found")
  /\ success st = false /\ loading st = false.
Proof.
  intros body w.
  refine (proj2 (proj2 (proj2
            (server_error_is_shown w (make_response 404 (inr body))
               [ (js "success", JBool false);
                 (js "error", JStr (js "Booking not found")) ]
               (js "Booking not found") _ _ _ _ _))) (js "u1")).
  - intros c. reflexivity.
  - reflexivity.
  - reflexivity.
  - reflexivity.
  - discriminate.
Defined.

(** Running a hook against a server that answers ok with an object. *)
Ltac run_answered Hnet Hok Hjson Hsuccess Hdata :=
  unfold_js;
  match goal with
  | |- context [ApiService.request ?e ?o ?w1] =>
      let Hrun := fresh "Hrun" in
      let Hb := fresh "Hb" in
      destruct (request_answered e o w1 _ _ (Hnet _) Hok Hjson)
        as [? [Hrun Hb]];
      rewrite Hrun; clear Hrun
  end;
  unfold_js; cbn [get_prop]; rewrite ?Hsuccess, ?Hdata;
  unfold_js; cbn [truthy]; unfold_js; rewrite ?Hdata; unfold_js.

(** X11. An answer [{success: true, data: d}] with a status that is ok and a
    truthy [d] is stored as it came: [createBooking] puts [d] in
    [bookingResponse] and [getBookingDetails] puts it in [bookingDetails],
    with [success] true and no error; [confirmBooking] and [updatePayment]
    report the success. *)
Theorem server_answer_is_stored (w : World) (r : Response)
    (fields : list (jsstring * JsValue)) (d : JsValue) :
  (forall c, respond w (fetched w) c = Resolves r) ->
  ok r = true ->
  json r = inr (JObj fields) ->
  lookup_field (js "success") fields = JBool true ->
  lookup_field (js "data") fields = d ->
  truthy d = true ->
  (forall data,
      let st := booking (fst (UseBooking.createBooking data w)) in
      bookingResponse st = d
      /\ success st = true /\ error st = JNull /\ loading st = false)
  /\ (forall uuid,
      let st := booking (fst (UseBooking.getBookingDetails uuid w)) in
      bookingDetails_ st = d
      /\ success st = true /\ error st = JNull /\ loading st = false)
  /\ (forall uuid,
      let st := booking (fst (UseBooking.confirmBooking uuid w)) in
      success st = true /\ error st = JNull /\ loading st = false)
  /\ (forall uuid p,
      let st := booking (fst (UseBooking.updatePayment uuid p w)) in
      success st = true /\ error st = JNull /\ loading st = false).
Proof.
  intros Hnet Hok Hjson Hsuccess Hdata Hd.
  repeat match goal with |- _ /\ _ => split end; intros; subst st.
  - unfold UseBooking.createBooking, UseBooking.caught, UseBooking.setState,
      ApiService.createBooking.
    run_answered Hnet Hok Hjson Hsuccess Hdata. rewrite Hd. unfold_js.
    repeat split.
  - unfold UseBooking.getBookingDetails, UseBooking.caught, UseBooking.setState,
      ApiService.getBookingDetails.
    run_answered Hnet Hok Hjson Hsuccess Hdata. rewrite Hd. unfold_js.
    repeat split.
  - unfold UseBooking.confirmBooking, UseBooking.caught, UseBooking.setState,
      ApiService.confirmBooking.
    run_answered Hnet Hok Hjson Hsuccess Hdata. repeat split.
  - unfold UseBooking.updatePayment, UseBooking.caught, UseBooking.setState,
      ApiService.updatePaymentStatus.
    run_answered Hnet Hok Hjson Hsuccess Hdata. repeat split.
Qed.

Lemma server_answer_is_stored_witness :
  let w := fresh_world (answering 200 created_answer) (fun _ => None) 0 in
  let st := booking (fst (UseBooking.createBooking jane w)) in
  bookingResponse st
  = JObj [ (js "bookingId", JStr (js "booking_1"));
           (js "uuid", JStr (js "u1"));
           (js "magicLink",
            JStr (js "https://tbook-v1.vercel.app/appt/abc"));
           (js "status", JStr (js "pending_confirmation")) ]
  /\ success st = true /\ error st = JNull /\ loading st = false.
Proof.
  intros w.
  refine (proj1
            (server_answer_is_stored w (make_response 200 (inr created_answer))
               [ (js "success", JBool true);
                 (js "data", JObj [ (js "bookingId", JStr (js "booking_1"));
                                    (js "uuid", JStr (js "u1"));
                                    (js "magicLink",
                                     JStr (js "https://tbook-v1.vercel.app/appt/abc"));
                                    (js "status", JStr (js "pending_confirmation")) ]) ]
               _ _ _ _ _ eq_refl _) jane);
    first [reflexivity | intros c; reflexivity].
Defined.

(** ** The magic-link hook *)

Lemma ml_shown_failed (e : JsValue) (s : UseMagicLinkState) :
  truthy e = true -> ml_shown (UseMagicLink.failed e s).
Proof. intros H. split; [reflexivity|]. right. exact H. Qed.

Ltac close_ml :=
  cbn [magicLink with_magicLink with_console with_fetched
       ml_loading ml_error preview analytics
       UseMagicLink.previewed UseMagicLink.analysed UseMagicLink.failed
       UseMagicLink.starting];
  first [ reflexivity
        | split; [reflexivity | left; reflexivity]
        | apply ml_shown_failed; show_error
        | intros; discriminate
        | left; split; [reflexivity | assumption]
        | right; split; [reflexivity | show_error]
        | idtac ].


(** X13. [getAnalytics] makes the one GET of the analytics route, never
    touches [preview], and ends not loading, with no error or a truthy
    one. *)
Theorem getAnalytics_outcome (magicLinkId : jsstring) (w : World) :
  exists w',
    UseMagicLink.getAnalytics magicLinkId w = (w', Normal tt)
    /\ fetched w' = fetched w
         ++ [ {| url := apiBaseUrl ++ js "/appt/" ++ magicLinkId ++ js "/analytics";
                 method := None; headers := json_headers; body := None |} ]
    /\ preview (magicLink w') = preview (magicLink w)
    /\ booking w' = booking w
    /\ ml_shown (magicLink w').
Proof.
  unfold UseMagicLink.getAnalytics, UseMagicLink.caught,
    UseMagicLink.setState, ApiService.getMagicLinkAnalytics.
  unfold_js. run_request. repeat case_js; unfold_js;
    (eexists; split; [reflexivity|]);
    do 3 (split; [reflexivity|]); close_ml.
Qed.

(** ** The details view *)

Lemma status_not_both (v : JsValue) :
  strict_eq_str v (js "pending_confirmation") = true ->
  strict_eq_str v (js "confirmed") = true -> False.
Proof.
  intros H1 H2. apply strict_eq_str_true in H1. apply strict_eq_str_true in H2.
  rewrite H1 in H2. discriminate H2.
Qed.

(** X14. The details view renders at most one group of action buttons, the
    confirm button or the two payment buttons, never both; and none at all
    while loading, while an error is shown or without a booking. *)
Theorem action_buttons_exclusive (w : World) :
  (BookingDetails.action_buttons w = []
   \/ BookingDetails.action_buttons w = [BookingDetails.ConfirmButton]
   \/ BookingDetails.action_buttons w
      = [BookingDetails.MarkPaidButton; BookingDetails.MarkFailedButton])
  /\ (loading (booking w) = true
      \/ truthy (error (booking w)) = true
      \/ truthy (bookingDetails_ (booking w)) = false ->
      BookingDetails.action_buttons w = []).
Proof.
  unfold BookingDetails.action_buttons.
  destruct (loading (booking w)) eqn:Hl.
  { split; [left; reflexivity | reflexivity]. }
  destruct (truthy (error (booking w))) eqn:He.
  { split; [left; reflexivity | reflexivity]. }
  destruct (truthy (bookingDetails_ (booking w))) eqn:Hd; cbn [negb].
  2: { split; [left; reflexivity | reflexivity]. }
  split; [|intros [H|[H|H]]; discriminate H].
  destruct (strict_eq_str (BookingDetails.displayed_status w)
              (js "pending_confirmation")) eqn:H1;
    destruct (strict_eq_str (BookingDetails.displayed_status w)
                (js "confirmed")) eqn:H2; cbn [andb app].
  - destruct (status_not_both _ H1 H2).
  - right. left. reflexivity.
  - destruct (strict_eq_str (BookingDetails.displayed_paymentStatus w)
                (js "pending")); [right; right | left]; reflexivity.
  - left. reflexivity.
Qed.

Lemma no_buttons_on_failure (w : World) :
  shown (booking w) ->
  success (booking w) = true \/ BookingDetails.action_buttons w = [].
Proof.
  intros [Hl [[Hs _]|[_ He]]]; [left; exact Hs|]. right.
  unfold BookingDetails.action_buttons. rewrite Hl, He. reflexivity.
Qed.

(** X15. When [confirmBooking], [updatePayment] or [getBookingDetails] fails,
    the details view shows the error screen: no action button is rendered
    after it, whatever booking the hook still holds. *)
Theorem failed_operation_hides_buttons (w : World) :
  (forall uuid,
      let w' := fst (UseBooking.confirmBooking uuid w) in
      success (booking w') = true \/ BookingDetails.action_buttons w' = [])
  /\ (forall uuid p,
      let w' := fst (UseBooking.updatePayment uuid p w) in
      success (booking w') = true \/ BookingDetails.action_buttons w' = [])
  /\ (forall uuid,
      let w' := fst (UseBooking.getBookingDetails uuid w) in
      success (booking w') = true \/ BookingDetails.action_buttons w' = []).
Proof.
  repeat match goal with |- _ /\ _ => split end; intros; subst w'.
  - destruct (confirmBooking_outcome uuid w) as [w' [-> [H _]]].
    apply no_buttons_on_failure, H.
  - destruct (updatePayment_outcome uuid p w) as [w' [-> [H _]]].
    apply no_buttons_on_failure, H.
  - destruct (getBookingDetails_outcome uuid w) as [w' [-> [H _]]].
    apply no_buttons_on_failure, H.
Qed.

(** [updatePayment] and [confirmBooking] with all they leave alone. *)
Lemma updatePayment_frame (uuid : jsstring) (p : PaymentUpdateRequest)
    (w : World) :
  exists w',
    UseBooking.updatePayment uuid p w = (w', Normal tt)
    /\ fetched w' = fetched w ++ [payment_call uuid p]
    /\ called w' = called w
    /\ timers w' = timers w
    /\ paymentLoading w' = paymentLoading w
    /\ clock w' = clock w
    /\ parent w' = parent w
    /\ shown (booking w').
Proof.
  unfold UseBooking.updatePayment, UseBooking.caught, UseBooking.setState,
    ApiService.updatePaymentStatus.
  unfold_js; run_request; repeat case_js; unfold_js;
    (eexists; split; [reflexivity|]);
    do 6 (split; [reflexivity|]); close_hook.
Qed.

Lemma confirmBooking_frame (uuid : jsstring) (w : World) :
  exists w',
    UseBooking.confirmBooking uuid w = (w', Normal tt)
    /\ fetched w' = fetched w ++ [confirm_call uuid]
    /\ called w' = called w
    /\ timers w' = timers w
    /\ paymentLoading w' = paymentLoading w
    /\ clock w' = clock w
    /\ shown (booking w').
Proof.
  unfold UseBooking.confirmBooking, UseBooking.caught, UseBooking.setState,
    ApiService.confirmBooking.
  unfold_js; run_request; repeat case_js; unfold_js;
    (eexists; split; [reflexivity|]);
    do 5 (split; [reflexivity|]); close_hook.
Qed.

(** X16. Without a uuid [handlePaymentUpdate] does nothing at all.  With one
    it sends a single PUT whose [paymentId] is [payment_] followed by the
    clock reading, with amount 100 USD for [completed] and no amount for
    [failed]; then, whether or not the update succeeded, it calls the
    parent's [onPaymentUpdate] (if given).  When that callback returns, or
    none was given, the refresh is scheduled after one second; when it
    throws, no refresh is scheduled and the thrown value is logged as
    "Payment update failed:".  In every case the handler returns and leaves
    [paymentLoading] false. *)
Theorem handlePaymentUpdate_outcome (props : BookingDetails.Props)
    (r : BookingDetails.PaymentResult) (w : World) :
  match BookingDetails.uuid props with
  | Some (a :: u') =>
      let u := a :: u' in
      let notice := OnPaymentUpdate u (BookingDetails.as_update_status r) in
      let thrown :=
        if BookingDetails.onPaymentUpdate props then parent w notice else None in
      exists w',
        BookingDetails.handlePaymentUpdate props r w = (w', Normal tt)
        /\ fetched w' = fetched w ++ [payment_call u (payment_update r (clock w))]
        /\ called w'
           = called w
               ++ (if BookingDetails.onPaymentUpdate props then [notice] else [])
        /\ paymentLoading w' = false
        /\ shown (booking w')
        /\ match thrown with
           | None => timers w' = timers w ++ [RefreshBookingDetails u 1000]
           | Some e =>
               timers w' = timers w
               /\ exists before,
                   console w'
                   = before ++ [[Text (js "Payment update failed:"); Caught e]]
           end
  | _ => BookingDetails.handlePaymentUpdate props r w = (w, Normal tt)
  end.
Proof.
  unfold BookingDetails.handlePaymentUpdate.
  destruct (BookingDetails.uuid props) as [[|a u']|]; [reflexivity| |reflexivity].
  cbn [truthy length Nat.eqb negb]. unfold_js.
  match goal with
  | |- context [UseBooking.updatePayment ?u ?p ?w1] =>
      destruct (updatePayment_frame u p w1)
        as [w2 [Hrun [Hlog [Hcall [Htim [_ [_ [Hpar Hshown]]]]]]]];
      rewrite Hrun
  end.
  cbn [fetched called timers clock parent with_paymentLoading] in *.
  destruct (BookingDetails.onPaymentUpdate props); unfold_js.
  - rewrite Hpar.
    destruct (parent w (OnPaymentUpdate (a :: u') (BookingDetails.as_update_status r)))
      as [e|];
      (eexists; split; [reflexivity|]);
      cbn [fetched called timers paymentLoading booking console
           with_paymentLoading with_timers with_called with_console];
      rewrite ?Hlog, ?Hcall, ?Htim;
      repeat match goal with |- _ /\ _ => split end;
      first [reflexivity | exact Hshown | eexists; reflexivity].
  - (eexists; split; [reflexivity|]);
      cbn [fetched called timers paymentLoading booking
           with_paymentLoading with_timers with_called];
      rewrite ?Hlog, ?Hcall, ?Htim, ?app_nil_r;
      repeat match goal with |- _ /\ _ => split end;
      first [reflexivity | exact Hshown].
Qed.

(** X17. A click on the confirm button makes the POST of the confirm route and
    schedules one refresh; when that timer fires the GET of the details
    follows, so the two calls go out in this order.  When the guard of the
    handler fails nothing is sent and nothing is scheduled. *)
Theorem confirm_then_refresh (props : BookingDetails.Props) (w : World) :
  let w1 := fst (BookingDetails.handleConfirmBooking props w) in
  (w1 = w
   /\ (BookingDetails.uuid props = None
       \/ BookingDetails.uuid props = Some []
       \/ strict_eq_str (BookingDetails.displayed_status w)
            (js "pending_confirmation") = false))
  \/ (exists u,
        BookingDetails.uuid props = Some u
        /\ BookingDetails.displayed_status w = JStr (js "pending_confirmation")
        /\ fetched w1 = fetched w ++ [confirm_call u]
        /\ timers w1 = timers w ++ [RefreshBookingDetails u 1000]
        /\ fetched (fst (BookingDetails.run_task (RefreshBookingDetails u 1000) w1))
           = fetched w ++ [confirm_call u; details_call u]).
Proof.
  intros w1. subst w1. unfold BookingDetails.handleConfirmBooking. unfold_js.
  destruct (BookingDetails.uuid props) as [[|a u']|]; [left; auto | | left; auto].
  cbn [truthy length Nat.eqb negb andb].
  fold (BookingDetails.displayed_status w).
  destruct (strict_eq_str (BookingDetails.displayed_status w)
              (js "pending_confirmation")) eqn:Hs; [|left; auto].
  right. exists (a :: u').
  destruct (confirmBooking_frame (a :: u') w)
    as [w2 [Hrun [Hlog [_ [Htim _]]]]].
  rewrite Hrun. cbn [fst].
  split; [reflexivity|]. split; [apply strict_eq_str_true, Hs|].
  cbn [fetched timers with_timers]. split; [exact Hlog|].
  split; [rewrite Htim; reflexivity|].
  cbn [BookingDetails.run_task].
  destruct (getBookingDetails_effect (a :: u')
              (with_timers (timers w2 ++ [RefreshBookingDetails (a :: u') 1000]) w2))
    as [w3 [Hrun3 [Hlog3 _]]].
  rewrite Hrun3. cbn [fst]. rewrite Hlog3. cbn [fetched with_timers].
  rewrite Hlog, <- app_assoc. reflexivity.
Qed.

(** ** The booking form, further *)

Lemma createBooking_frame (data : BookingFormData) (w : World) :
  exists w',
    UseBooking.createBooking data w = (w', Normal tt)
    /\ fetched w' = fetched w ++ [create_call data]
    /\ called w' = called w
    /\ timers w' = timers w
    /\ shown (booking w').
Proof.
  unfold UseBooking.createBooking, UseBooking.caught, UseBooking.setState,
    ApiService.createBooking.
  unfold_js; run_request; repeat case_js; unfold_js;
    (eexists; split; [reflexivity|]);
    do 3 (split; [reflexivity|]); close_hook.
Qed.

(** X18. A submission that is turned down (a blank contact field, no date, or
    a date that [Date] cannot read) sends nothing, calls nothing, writes one
    line to the console and leaves the hook in its initial state, so a
    result shown before is cleared.  A submission that goes out calls the
    parent's [onSubmit] (if given) with the data that was sent, whether or
    not the server accepted the booking. *)
Theorem handleSubmit_outcome (onSubmit : bool) (formData : BookingFormData)
    (w : World) :
  exists w',
    BookingForm.handleSubmit onSubmit formData w = (w', Normal tt)
    /\ ((fetched w' = fetched w
         /\ called w' = called w
         /\ booking w' = UseBooking.initial
         /\ exists line, console w' = console w ++ [line])
        \/ (exists iso,
              toISOString w (appointmentDate formData) = Some iso
              /\ fetched w'
                 = fetched w ++ [create_call (BookingForm.formatted formData iso)]
              /\ called w'
                 = called w
                     ++ (if onSubmit
                         then [OnSubmit (BookingForm.formatted formData iso)]
                         else [])
              /\ shown (booking w'))).
Proof.
  unfold BookingForm.handleSubmit, UseBooking.clearState, UseBooking.setState.
  unfold_js.
  destruct (BookingForm.is_empty (trim (userName formData))).
  { eexists. split; [reflexivity|]. left. repeat split. eexists. reflexivity. }
  destruct (BookingForm.is_empty (trim (userPhone formData))).
  { eexists. split; [reflexivity|]. left. repeat split. eexists. reflexivity. }
  destruct (BookingForm.is_empty (appointmentDate formData)).
  { eexists. split; [reflexivity|]. left. repeat split. eexists. reflexivity. }
  unfold Date_toISOString. cbn [toISOString with_booking].
  destruct (toISOString w (appointmentDate formData)) as [iso|] eqn:Hiso.
  - destruct (createBooking_frame (BookingForm.formatted formData iso)
                (with_booking UseBooking.initial w))
      as [w1 [Hrun [Hlog [Hcall [_ Hshown]]]]].
    rewrite Hrun. cbn [fetched called with_booking] in Hlog, Hcall.
    destruct onSubmit; unfold_js;
      try destruct (parent w1 (OnSubmit (BookingForm.formatted formData iso)));
      (eexists; split; [reflexivity|]); right; exists iso;
      cbn [fetched called booking with_called with_console];
      rewrite ?Hlog, ?Hcall, ?app_nil_r; auto.
  - eexists. split; [reflexivity|]. left. repeat split. eexists. reflexivity.
Qed.

Lemma find_absent {A : Type} (p : A -> bool) (l : list A) :
  existsb p l = false -> List.find p l = None.
Proof.
  induction l as [|a l IH]; cbn [existsb List.find]; [reflexivity|].
  destruct (p a); cbn [orb]; [discriminate | exact IH].
Qed.

Section Details.

Variables (field : jsstring) (value : JsValue).

Lemma find_replaced (details : list (jsstring * JsValue)) :
  existsb (fun kv => bool_decide (fst kv = field)) details = true ->
  List.find (fun kv => bool_decide (fst kv = field))
    (List.map (fun kv => if bool_decide (fst kv = field)
                         then (field, value) else kv) details)
  = Some (field, value).
Proof.
  induction details as [|[k v] details IH]; cbn [existsb List.map List.find fst];
    [discriminate|].
  destruct (bool_decide (k = field)) eqn:E; cbn [fst orb].
  - rewrite bool_decide_eq_true_2 by reflexivity. reflexivity.
  - rewrite E. exact IH.
Qed.

Lemma find_appended (details : list (jsstring * JsValue)) :
  existsb (fun kv => bool_decide (fst kv = field)) details = false ->
  List.find (fun kv => bool_decide (fst kv = field))
    (details ++ [(field, value)])
  = Some (field, value).
Proof.
  induction details as [|[k v] details IH]; cbn [existsb app List.find fst].
  - intros _. rewrite bool_decide_eq_true_2 by reflexivity. reflexivity.
  - destruct (bool_decide (k = field)); cbn [orb]; [discriminate | exact IH].
Qed.

Lemma find_other_replaced (other : jsstring)
    (details : list (jsstring * JsValue)) :
  other <> field ->
  List.find (fun kv => bool_decide (fst kv = other))
    (List.map (fun kv => if bool_decide (fst kv = field)
                         then (field, value) else kv) details)
  = List.find (fun kv => bool_decide (fst kv = other)) details.
Proof.
  intros Hne. induction details as [|[k v] details IH]; [reflexivity|].
  cbn [List.map List.find fst].
  destruct (bool_decide (k = field)) eqn:E; cbn [fst].
  - apply bool_decide_eq_true_1 in E. subst k.
    rewrite bool_decide_eq_false_2 by congruence. exact IH.
  - destruct (bool_decide (k = other)); [reflexivity | exact IH].
Qed.

Lemma find_other_appended (other : jsstring)
    (details : list (jsstring * JsValue)) :
  other <> field ->
  lookup_field other (details ++ [(field, value)]) = lookup_field other details.
Proof.
  intros Hne. unfold lookup_field.
  induction details as [|[k v] details IH]; cbn [app List.find fst].
  - rewrite bool_decide_eq_false_2 by congruence. reflexivity.
  - destruct (bool_decide (k = other)); [reflexivity | exact IH].
Qed.

(** X19. A detail set through [handleBookingDetailsChange] is what the form
    then holds under that key, the other details and the four fields of the
    form keep their values, and a key that was there stays where it was. *)
Theorem handleBookingDetailsChange_lookup (prev : BookingFormData) :
  let next := BookingForm.handleBookingDetailsChange field value prev in
  lookup_field field (bookingDetails next) = value
  /\ (forall other, other <> field ->
        lookup_field other (bookingDetails next)
        = lookup_field other (bookingDetails prev))
  /\ (lookup_field field (bookingDetails prev) <> JUndefined ->
      List.map fst (bookingDetails next) = List.map fst (bookingDetails prev))
  /\ userName next = userName prev
  /\ userPhone next = userPhone prev
  /\ appointmentType next = appointmentType prev
  /\ appointmentDate next = appointmentDate prev.
Proof.
  intros next. subst next.
  unfold BookingForm.handleBookingDetailsChange, BookingForm.set_detail.
  cbn [bookingDetails userName userPhone appointmentType appointmentDate].
  repeat match goal with |- _ /\ _ => split end; try reflexivity.
  - unfold lookup_field.
    destruct (existsb _ (bookingDetails prev)) eqn:E.
    + rewrite (find_replaced _ E). reflexivity.
    + rewrite (find_appended _ E). reflexivity.
  - intros other Hne.
    destruct (existsb _ (bookingDetails prev)).
    + unfold lookup_field. rewrite (find_other_replaced other _ Hne).
      reflexivity.
    + apply find_other_appended, Hne.
  - intros Hthere.
    destruct (existsb _ (bookingDetails prev)) eqn:E.
    + rewrite List.map_map. apply List.map_ext_in. intros [k v] _.
      cbn [fst].
      destruct (bool_decide (k = field)) eqn:B; [|reflexivity].
      apply bool_decide_eq_true_1 in B. cbn [fst]. congruence.
    + exfalso. apply Hthere. unfold lookup_field.
      rewrite (find_absent _ _ E). reflexivity.
Qed.

End Details.

(** ** Ids in URLs *)

Lemma app_inv_both (p s a b : jsstring) : p ++ a ++ s = p ++ b ++ s -> a = b.
Proof.
  intros H. apply app_inv_head in H. apply app_inv_tail in H. exact H.
Qed.

(** X20. Every operation of the service puts the id into its URL as it is:
    two ids give the same URL only when they are the same id, for the
    confirm, details, payment, preview and track calls alike.  Nothing is
    encoded on the way, so the details URL of the id [confirm/x] is the
    confirm URL of [x]; the two calls still differ, by their method. *)
Theorem urls_keep_the_id (a b : jsstring) :
  (url (confirm_call a) = url (confirm_call b) -> a = b)
  /\ (url (details_call a) = url (details_call b) -> a = b)
  /\ (forall p q, url (payment_call a p) = url (payment_call b q) -> a = b)
  /\ (url (preview_call a) = url (preview_call b) -> a = b)
  /\ (forall e f, url (track_call a e) = url (track_call b f) -> a = b)
  /\ url (details_call (js "confirm/" ++ a)) = url (confirm_call a)
  /\ details_call (js "confirm/" ++ a) <> confirm_call a.
Proof.
  unfold confirm_call, details_call, payment_call, preview_call, track_call.
  cbn [url].
  repeat match goal with |- _ /\ _ => split end.
  - intros H. apply app_inv_head in H. apply app_inv_head in H. exact H.
  - intros H. apply app_inv_head in H. apply app_inv_head in H. exact H.
  - intros p q H. apply app_inv_head in H. apply app_inv_head in H. exact H.
  - intros H. apply app_inv_head in H. apply (app_inv_both _ _ _ _ H).
  - intros e f H. apply app_inv_head in H. apply (app_inv_both _ _ _ _ H).
  - reflexivity.
  - intros H. discriminate H.
Qed.

(** ** Worked runs

    The definitions above compute; these runs put the sample worlds through
    them. *)

Example js_of_N_status : js_of_N 0 = js "0" /\ js_of_N 503 = js "503".
Proof. split; reflexivity. Qed.

Example to_string_values :
  to_string (JArr [JNum 1; JNull; JStr (js "a")]) = js "1,,a"
  /\ to_string (JArr []) = []
  /\ to_string (JNum (-42)) = js "-42"
  /\ to_string (JObj []) = js "[object Object]".
Proof. repeat split; reflexivity. Qed.

Example trim_name : trim (js "  Jane Doe  ") = js "Jane Doe".
Proof. reflexivity. Qed.

Example trim_no_break_space_only : trim [160; 32; 9; 8195] = [].
Proof. reflexivity. Qed.

Example formatCardNumber_16 :
  PaymentInterface.formatCardNumber (js "4242-4242 4242x4242") = js "4242 4242 4242 4242".
Proof. reflexivity. Qed.

Example formatCardNumber_long :
  PaymentInterface.formatCardNumber (js "12345678901234567890") = js "1234 5678 9012 3456".
Proof. reflexivity. Qed.

Example formatCardNumber_short :
  PaymentInterface.formatCardNumber (js " 1 2a3") = js "123".
Proof. reflexivity. Qed.

Example formatCardNumber_six :
  PaymentInterface.formatCardNumber (js "123456") = js "1234 56".
Proof. reflexivity. Qed.

Example request_offline :
  snd (ApiService.healthCheck (fresh_world offline (fun _ => None) 0))
  = Normal (JObj [ (js "success", JBool false);
                   (js "error", JStr (js "Failed to fetch")) ]).
Proof. reflexivity. Qed.

Example request_not_found :
  snd (ApiService.getBookingDetails (js "u1")
         (fresh_world
            (answering 404 (JObj [ (js "success", JBool false);
                                   (js "error", JStr (js "Booking not found")) ]))
            (fun _ => None) 0))
  = Normal (JObj [ (js "success", JBool false);
                   (js "error", JStr (js "Booking not found")) ]).
Proof. reflexivity. Qed.

Example request_status_line :
  snd (ApiService.healthCheck
         (fresh_world (answering 503 (JObj [])) (fun _ => None) 0))
  = Normal (JObj [ (js "success", JBool false);
                   (js "error", JStr (js "HTTP error! status: 503")) ]).
Proof. reflexivity. Qed.

Example request_not_json :
  snd (ApiService.healthCheck
         (fresh_world (answering_html 200) (fun _ => None) 0))
  = Normal (JObj [ (js "success", JBool false);
                   (js "error", JStr (js "Unexpected token '<'")) ]).
Proof. reflexivity. Qed.

Example request_null_body :
  snd (ApiService.healthCheck
         (fresh_world (answering 500 JNull) (fun _ => None) 0))
  = Normal (JObj [ (js "success", JBool false);
                   (js "error",
                    JStr (js "Cannot read properties of null (reading 'error')")) ]).
Proof. reflexivity. Qed.

Example submit_jane :
  let w := fst (BookingForm.handleSubmit true jane
                  (fresh_world (answering 200 created_answer) iso_of_jane 0)) in
  fetched w
  = [create_call (BookingForm.formatted jane (js "2025-03-01T10:00:00.000Z"))]
  /\ success (booking w) = true
  /\ error (booking w) = JNull
  /\ loading (booking w) = false
  /\ get_prop (bookingResponse (booking w)) (js "uuid") = inr (JStr (js "u1"))
  /\ called w
     = [OnSubmit (BookingForm.formatted jane (js "2025-03-01T10:00:00.000Z"))].
Proof. repeat split; reflexivity. Qed.

Example submit_blank_name :
  let blank := BookingForm.handleInputChange BookingForm.F_userName
                 (js "   ") jane in
  let w := fst (BookingForm.handleSubmit true blank
                  (fresh_world (answering 200 created_answer) iso_of_jane 0)) in
  fetched w = [] /\ called w = []
  /\ console w = [[Text (js "User name is required")]].
Proof. repeat split; reflexivity. Qed.

Example submit_bad_date :
  let bad := BookingForm.handleInputChange BookingForm.F_appointmentDate
               (js "tomorrow") jane in
  let w := fst (BookingForm.handleSubmit true bad
                  (fresh_world (answering 200 created_answer) iso_of_jane 0)) in
  fetched w = [].
Proof. reflexivity. Qed.

Example submit_offline :
  let w := fst (BookingForm.handleSubmit false jane
                  (fresh_world offline iso_of_jane 0)) in
  success (booking w) = false
  /\ error (booking w) = JStr (js "Failed to fetch")
  /\ loading (booking w) = false.
Proof. repeat split; reflexivity. Qed.

Example buttons_pending :
  BookingDetails.action_buttons
    (showing (js "pending_confirmation") (js "pending"))
  = [BookingDetails.ConfirmButton].
Proof. reflexivity. Qed.

Example buttons_confirmed :
  BookingDetails.action_buttons (showing (js "confirmed") (js "pending"))
  = [BookingDetails.MarkPaidButton; BookingDetails.MarkFailedButton].
Proof. reflexivity. Qed.

Example buttons_none :
  BookingDetails.action_buttons (showing (js "completed") (js "completed")) = []
  /\ BookingDetails.action_buttons (showing (js "cancelled") (js "pending")) = []
  /\ BookingDetails.action_buttons (showing (js "confirmed") (js "completed")) = [].
Proof. repeat split; reflexivity. Qed.

Example click_confirm :
  let w := fst (BookingDetails.onClick for_u1 BookingDetails.ConfirmButton
                  (showing (js "pending_confirmation") (js "pending"))) in
  fetched w = [confirm_call (js "u1")]
  /\ timers w = [RefreshBookingDetails (js "u1") 1000]
  /\ success (booking w) = true.
Proof. repeat split; reflexivity. Qed.

Example confirm_handler_refuses :
  fetched (fst (BookingDetails.handleConfirmBooking for_u1
                  (showing (js "completed") (js "completed")))) = [].
Proof. reflexivity. Qed.

Example click_mark_paid :
  let w := fst (BookingDetails.onClick for_u1 BookingDetails.MarkPaidButton
                  (showing (js "confirmed") (js "pending"))) in
  fetched w
  = [payment_call (js "u1")
       {| paymentStatus := PaymentUpdateStatus.completed;
          paymentId := Some (js "payment_1700000000000");
          amount := Some 100%Z; currency := Some (js "USD") |}]
  /\ called w = [OnPaymentUpdate (js "u1") PaymentUpdateStatus.completed]
  /\ paymentLoading w = false.
Proof. repeat split; reflexivity. Qed.

Example confirm_then_complete :
  let s1 := fst (Backend.transition 5 (js "u1") BookingStatus.confirmed store_1) in
  let s2 := fst (Backend.transition 6 (js "u1") BookingStatus.completed s1) in
  (Backend.status <$> Backend.bookings s1 !! js "u1") = Some BookingStatus.confirmed
  /\ (Backend.confirmedAt <$> Backend.bookings s1 !! js "u1") = Some (Some 5)
  /\ (Backend.status <$> Backend.bookings s2 !! js "u1") = Some BookingStatus.completed
  /\ snd (Backend.transition 7 (js "u1") BookingStatus.confirmed s2)
     = inl Backend.InvalidStateTransition
  /\ snd (Backend.transition 7 (js "u1") BookingStatus.cancelled s2)
     = inl Backend.InvalidStateTransition
  /\ snd (Backend.transition 7 (js "u1") BookingStatus.completed store_1)
     = inl Backend.InvalidStateTransition.
Proof. repeat split; vm_compute; reflexivity. Qed.

Example reconfirm_is_idempotent :
  let s1 := fst (Backend.transition 5 (js "u1") BookingStatus.confirmed store_1) in
  let s2 := fst (Backend.transition 9 (js "u1") BookingStatus.confirmed s1) in
  (Backend.confirmedAt <$> Backend.bookings s2 !! js "u1") = Some (Some 5).
Proof. vm_compute. reflexivity. Qed.

Example resolve_counts_preview_does_not :
  let base := js "https://usetextbook.com" in
  let resolve_call :=
    {| url := ApiService.getMagicLinkUrl (js "abc"); method := None;
       headers := []; body := None |} in
  let after_previews :=
    Backend.store_after base 5 store_1
      [preview_call (js "abc"); preview_call (js "abc"); preview_call (js "abc");
       preview_call (js "abc"); preview_call (js "abc")] in
  let after_resolves :=
    Backend.store_after base 5 store_1 [resolve_call; resolve_call] in
  (Backend.accessCount <$> Backend.getByMagicLink (js "abc") after_previews) = Some 0
  /\ (Backend.accessCount <$> Backend.getByMagicLink (js "abc") after_resolves) = Some 2
  /\ snd (Backend.resolve base 5 (js "abc") store_1)
     = inr (js "https://usetextbook.com/booking/booking_1?status=pending_confirmation&payment_status=pending&source=magic_link")
  /\ snd (Backend.resolve base 5 (js "nope") store_1) = inl Backend.NotFound.
Proof. repeat split; vm_compute; reflexivity. Qed.

Example preview_abc :
  let w := repeatedly 5 (UseMagicLink.previewMagicLink (js "abc"))
             (fresh_world (backend_net store_1) (fun _ => None) 0) in
  length (fetched w) = 5%nat
  /\ ml_loading (magicLink w) = false
  /\ ml_error (magicLink w) = JNull
  /\ get_prop (preview (magicLink w)) (js "bookingId")
     = inr (JStr (js "booking_1"))
  /\ (Backend.accessCount
        <$> Backend.getByMagicLink (js "abc")
              (Backend.store_after (js "https://usetextbook.com") 5 store_1
                 (fetched w)))
     = Some 0.
Proof. repeat split; vm_compute; reflexivity. Qed.

Example preview_unknown :
  let w := fst (UseMagicLink.previewMagicLink (js "nope")
                  (fresh_world (backend_net store_1) (fun _ => None) 0)) in
  ml_error (magicLink w) = JStr (js "Booking not found")
  /\ preview (magicLink w) = JNull.
Proof. repeat split; vm_compute; reflexivity. Qed.

Example track_offline :
  let w0 := fresh_world offline (fun _ => None) 0 in
  let r := UseMagicLink.trackEvent (js "abc")
             (JObj [ (js "event", JStr (js "page_view")) ]) w0 in
  snd r = Normal tt /\ magicLink (fst r) = magicLink w0.
Proof. repeat split; reflexivity. Qed.

Example formatExpiry_runs :
  PaymentInterface.formatExpiry (js "1") = js "1"
  /\ PaymentInterface.formatExpiry (js "12") = js "12/"
  /\ PaymentInterface.formatExpiry (js "1225") = js "12/25"
  /\ PaymentInterface.formatExpiry (js "12/2 5 99") = js "12/25".
Proof. repeat split; reflexivity. Qed.

Example cvv_runs :
  PaymentInterface.cvv_onChange (js "12a34567") = js "1234"
  /\ PaymentInterface.cvv_onChange (js "x") = [].
Proof. split; reflexivity. Qed.

Example null_body_is_shown :
  let w := fst (UseBooking.getBookingDetails (js "u1")
                  (fresh_world (answering 200 JNull) (fun _ => None) 0)) in
  success (booking w) = false
  /\ error (booking w)
     = JStr (js "Cannot read properties of null (reading 'success')").
Proof. split; reflexivity. Qed.

Example empty_error_gets_fallback :
  let w := fst (UseBooking.confirmBooking (js "u1")
                  (fresh_world
                     (answering 500 (JObj [ (js "error", JArr []) ]))
                     (fun _ => None) 0)) in
  success (booking w) = false
  /\ error (booking w) = JStr (js "Failed to confirm booking").
Proof. split; reflexivity. Qed.

Example mark_failed_offline :
  let w := fst (BookingDetails.onClick for_u1 BookingDetails.MarkFailedButton
                  (with_booking (booking (showing (js "confirmed") (js "pending")))
                     (fresh_world offline (fun _ => None) 7))) in
  called w = [OnPaymentUpdate (js "u1") PaymentUpdateStatus.failed]
  /\ success (booking w) = false
  /\ BookingDetails.action_buttons w = [].
Proof. repeat split; reflexivity. Qed.

Example mark_paid_parent_throws :
  let w0 := with_parent parent_throws
              (showing (js "confirmed") (js "pending")) in
  let w := fst (BookingDetails.onClick for_u1 BookingDetails.MarkPaidButton
                  w0) in
  called w = [OnPaymentUpdate (js "u1") PaymentUpdateStatus.completed]
  /\ timers w = []
  /\ console w
     = [[Text (js "Payment update failed:");
         Caught (ErrorObject (js "Error") (js "parent failed"))]]
  /\ paymentLoading w = false.
Proof. repeat split; reflexivity. Qed.

Example mark_paid_parent_returns :
  let w := fst (BookingDetails.onClick for_u1 BookingDetails.MarkPaidButton
                  (showing (js "confirmed") (js "pending"))) in
  timers w = [RefreshBookingDetails (js "u1") 1000] /\ console w = [].
Proof. split; reflexivity. Qed.

Example submit_parent_throws :
  let w := fst (BookingForm.handleSubmit true jane
                  (with_parent parent_throws
                     (fresh_world (answering 200 created_answer)
                        iso_of_jane 0))) in
  success (booking w) = true
  /\ called w
     = [OnSubmit (BookingForm.formatted jane (js "2025-03-01T10:00:00.000Z"))]
  /\ console w
     = [[Text (js "Form submission error:");
         Caught (ErrorObject (js "Error") (js "parent failed"))]].
Proof. repeat split; reflexivity. Qed.
